(** * The kitty search kitten ([.config/kitty/search.py])

    A shallow embedding of the incremental-search overlay: the span finder
    [reindex], the word motions of [Search] ([_delete_word],
    [_move_word_left], [_move_word_right]), the key dispatcher, the debounced
    marker creation and the exit path, followed by the properties of the
    specification that are stated about them.

    Python values are embedded as follows: [int] is [Z]; [str] is the list of
    its code points ([list N]); [float] is the primitive binary64 [float];
    [dict[str, str]] is a [gmap]; an exception is the [Raises] alternative of
    [outcome].  A method of [Search] is a function from the object and the
    outside world to the object and the outside world. *)

From Stdlib Require Import ZArith NArith List String Ascii Bool Lia.
From Stdlib Require Import PrimFloat DecimalString.
From stdpp Require Import base option list gmap.

Local Open Scope Z_scope.

(** ** Python strings *)

Abbreviation char := N (only parsing).
Abbreviation str := (list N) (only parsing).

(** A string literal of the source, as the list of its code points. *)
Definition py (s : string) : str := map N_of_ascii (list_ascii_of_string s).

Definition len {A} (s : list A) : Z := Z.of_nat (length s).

(** [s[:k]] and [s[k:]]; a negative bound counts from the end. *)
Definition slice_bound {A} (s : list A) (k : Z) : nat :=
  Z.to_nat (if k <? 0 then Z.max 0 (len s + k) else k).

Definition slice_to {A} (s : list A) (k : Z) : list A := take (slice_bound s k) s.
Definition slice_from {A} (s : list A) (k : Z) : list A := drop (slice_bound s k) s.

Inductive exn := ValueError (msg : string).

Inductive outcome (A : Type) :=
| Returns (a : A)
| Raises (e : exn).
Arguments Returns {A} a.
Arguments Raises {A} e.

(** [s.index(c)] and [s.rindex(c)] for a one-character [c]. *)
Fixpoint index_from (i : Z) (s : str) (c : char) : option Z :=
  match s with
  | [] => None
  | x :: s' => if N.eqb x c then Some i else index_from (i + 1) s' c
  end.

Fixpoint rindex_from (i : Z) (s : str) (c : char) : option Z :=
  match s with
  | [] => None
  | x :: s' =>
      match rindex_from (i + 1) s' c with
      | Some j => Some j
      | None => if N.eqb x c then Some i else None
      end
  end.

Definition str_index (s : str) (c : char) : outcome Z :=
  match index_from 0 s c with
  | Some i => Returns i
  | None => Raises (ValueError "substring not found")
  end.

Definition str_rindex (s : str) (c : char) : outcome Z :=
  match rindex_from 0 s c with
  | Some i => Returns i
  | None => Raises (ValueError "substring not found")
  end.

(** ** Character classes

    Below code point 128 the classes are the fixed ASCII tables of the
    interpreter; above, they are read from the Unicode database, which is
    taken as given. *)

Class UnicodeData := {
  uni_isspace : N -> bool;
  uni_isalnum : N -> bool;
  uni_isdecimal : N -> bool;
  uni_isupper_or_title : N -> bool;
  uni_islower : N -> bool
}.

Section Classes.
Context `{UnicodeData}.
Local Open Scope N_scope.

Definition between (lo hi c : N) : bool := (lo <=? c) && (c <=? hi).

(** [\s] *)
Definition is_space (c : char) : bool :=
  if c <? 128 then between 9 13 c || between 28 32 c else uni_isspace c.

(** [\d] *)
Definition is_digit (c : char) : bool :=
  if c <? 128 then between 48 57 c else uni_isdecimal c.

(** [\w] *)
Definition is_word (c : char) : bool :=
  if c <? 128
  then between 48 57 c || between 65 90 c || between 97 122 c || (c =? 95)
  else uni_isalnum c.

(** [[^\w\d]] *)
Definition is_non_alphanum (c : char) : bool := negb (is_word c || is_digit c).

Definition is_upper_or_title (c : char) : bool :=
  if c <? 128 then between 65 90 c else uni_isupper_or_title c.

Definition is_lower (c : char) : bool :=
  if c <? 128 then between 97 122 c else uni_islower c.

(** [str.islower]: no upper- or titlecase character, and at least one
    lowercase one. *)
Fixpoint islower_from (cased : bool) (s : str) : bool :=
  match s with
  | [] => cased
  | c :: s' =>
      if is_upper_or_title c then false
      else islower_from (cased || is_lower c) s'
  end.

Definition islower (s : str) : bool := islower_from false s.
End Classes.

(** ** Regular expressions

    Every pattern of the source is one character class repeated at least once
    ([+], greedy), optionally anchored with [^] or [$]. *)

Record Pattern := {
  anchor_start : bool;
  char_class : char -> bool;
  anchor_end : bool
}.

Record Match := { m_start : nat; m_end : nat }.

Definition span (m : Match) : Z * Z := (Z.of_nat (m_start m), Z.of_nat (m_end m)).

Module re.

(** Length of the longest prefix of [s] inside the class. *)
Fixpoint run (cls : char -> bool) (s : str) : nat :=
  match s with
  | c :: s' => if cls c then S (run cls s') else O
  | [] => O
  end.

(** [$] holds at the end of the text and just before a final newline. *)
Definition at_dollar (rest : str) : bool :=
  match rest with
  | [] => true
  | [c] => N.eqb c 10
  | _ => false
  end.

(** Give back characters of a greedy run of [j] until [$] holds. *)
Fixpoint backtrack (j : nat) (s : str) : option nat :=
  match j with
  | O => None
  | S j' => if at_dollar (drop j s) then Some j else backtrack j' s
  end.

(** A match that starts exactly at offset [i], where [s] is the text from
    [i] on; the result is the length of the match. *)
Definition match_at (p : Pattern) (i : nat) (s : str) : option nat :=
  if anchor_start p && negb (Nat.eqb i 0) then None
  else
    let k := run (char_class p) s in
    if anchor_end p then backtrack k s
    else if Nat.eqb k 0 then None else Some k.

Fixpoint search_from (p : Pattern) (i : nat) (s : str) : option Match :=
  match s with
  | [] => None
  | _ :: s' =>
      match match_at p i s with
      | Some n => Some {| m_start := i; m_end := i + n |}
      | None => search_from p (S i) s'
      end
  end.

(** [pattern.search(text)] *)
Definition search (p : Pattern) (text : str) : option Match := search_from p 0 text.

(** The scan of [finditer]: [skip] characters still belong to the match
    found last, then the search resumes. *)
Fixpoint finditer_from (p : Pattern) (i skip : nat) (s : str) : list Match :=
  match s with
  | [] => []
  | _ :: s' =>
      match skip with
      | S k => finditer_from p (S i) k s'
      | O =>
          match match_at p i s with
          | Some n => {| m_start := i; m_end := i + n |} :: finditer_from p (S i) (pred n) s'
          | None => finditer_from p (S i) O s'
          end
      end
  end.

(** [list(pattern.finditer(text))] *)
Definition finditer (p : Pattern) (text : str) : list Match := finditer_from p 0 0 text.

End re.

Section Patterns.
Context `{UnicodeData}.

Definition SPACE_PATTERN : Pattern :=
  {| anchor_start := false; char_class := is_space; anchor_end := false |}.
Definition SPACE_PATTERN_END : Pattern :=
  {| anchor_start := false; char_class := is_space; anchor_end := true |}.
Definition SPACE_PATTERN_START : Pattern :=
  {| anchor_start := true; char_class := is_space; anchor_end := false |}.

Definition NON_ALPHANUM_PATTERN : Pattern :=
  {| anchor_start := false; char_class := is_non_alphanum; anchor_end := false |}.
Definition NON_ALPHANUM_PATTERN_END : Pattern :=
  {| anchor_start := false; char_class := is_non_alphanum; anchor_end := true |}.
Definition NON_ALPHANUM_PATTERN_START : Pattern :=
  {| anchor_start := true; char_class := is_non_alphanum; anchor_end := false |}.
End Patterns.

(** ** [reindex] *)

Definition reindex (text : str) (pattern : Pattern) (right : bool) : outcome (Z * Z) :=
  if negb right then
    match re.search pattern text with
    | Some m => Returns (span m)
    | None => Raises (ValueError "No pattern match found")
    end
  else
    let matches := re.finditer pattern text in
    match last matches with
    | None => Raises (ValueError "No pattern match found")
    | Some m => Returns (span m)
    end.



(** ** The line editor *)

(** Modelled from the spec: kitty's [LineEdit] (kittens.tui.line_edit) is a
    class of the host and its source is not part of this repository.
    Section 4.3 of the specification gives the contract that the word
    motions rely on: the text and a cursor offset in [0, len(text)];
    [splitAtCursor() -> (before, after)]; [backspace(n)] removes [n]
    characters before the cursor; [left(n)] and [right(n)] move the cursor
    by [n], clamped to the bounds; [home()], [end()], [clear()];
    [insertText(s)].  A count that is not positive changes nothing. *)
Module LineEdit.

(** Modelled from the spec: the input line, [{ text, cursor }]. *)
Record t := { current_input : str; cursor_pos : Z }.

(** Modelled from the spec: [clear()]. *)
Definition clear (le : t) : t := {| current_input := []; cursor_pos := 0 |}.

(** Modelled from the spec: a fresh, empty input line. *)
Definition new : t := {| current_input := []; cursor_pos := 0 |}.

(** Modelled from the spec: [splitAtCursor() -> (before, after)]. *)
Definition split_at_cursor (le : t) : str * str :=
  (take (Z.to_nat (cursor_pos le)) (current_input le),
   drop (Z.to_nat (cursor_pos le)) (current_input le)).

(** Modelled from the spec: [insertText(s)], at the cursor, which ends up
    behind the inserted text. *)
Definition add_text (text : str) (le : t) : t :=
  let '(before, after) := split_at_cursor le in
  {| current_input := before ++ text ++ after;
     cursor_pos := len before + len text |}.

(** Modelled from the spec: typed or pasted text is inserted. *)
Definition on_text (text : str) (in_bracketed_paste : bool) (le : t) : t :=
  add_text text le.

(** Modelled from the spec: [backspace(n)] removes [n] characters before
    the cursor (all of them when there are fewer). *)
Definition backspace (num : Z) (le : t) : t :=
  let '(before, after) := split_at_cursor le in
  let removed := Z.min (Z.max 0 num) (len before) in
  let nbefore := take (Z.to_nat (len before - removed)) before in
  {| current_input := nbefore ++ after; cursor_pos := len nbefore |}.

(** Modelled from the spec: [left(n)] moves the cursor by [n], clamped. *)
Definition left (num : Z) (le : t) : t :=
  {| current_input := current_input le;
     cursor_pos := Z.max 0 (cursor_pos le - Z.max 0 num) |}.

(** Modelled from the spec: [right(n)] moves the cursor by [n], clamped. *)
Definition right (num : Z) (le : t) : t :=
  {| current_input := current_input le;
     cursor_pos := Z.min (len (current_input le)) (cursor_pos le + Z.max 0 num) |}.

(** Modelled from the spec: [home()]. *)
Definition home (le : t) : t :=
  {| current_input := current_input le; cursor_pos := 0 |}.

(** Modelled from the spec: [end()]. *)
Definition end_ (le : t) : t :=
  {| current_input := current_input le; cursor_pos := len (current_input le) |}.

(** The invariant of the input line: the cursor is within the text. *)
Definition wf (le : t) : Prop := 0 <= cursor_pos le <= len (current_input le).

End LineEdit.

(** ** Key events and the outside world *)

Inductive EventType := PRESS | REPEAT | RELEASE.

#[global] Instance EventType_eq_dec : EqDecision EventType.
Proof. solve_decision. Defined.

(** A key event of the host; [matches] is its method that tests a shortcut
    such as [ctrl+w]. *)
Record KeyEventType := {
  type : EventType;
  key : str;
  matches : str -> bool
}.

(** What the installation fixes: the key bindings that the line editor
    handles itself ([LineEdit.on_key], which reports whether it handled the
    event), and the path of the scroll-mark kitten next to this file. *)
Class Host := {
  LineEdit_on_key : KeyEventType -> LineEdit.t -> bool * LineEdit.t;
  SCROLLMARK_FILE : str
}.

(** What the session does to its surroundings: the argument lists passed to
    [kitty @], oldest first; the number of screen redraws; and the wall
    clock, given by its successive readings. *)
Record World := {
  remote_calls : list (list str);
  screen_draws : nat;
  wall_clock : nat -> float;
  clock_reads : nat
}.

Definition call_remote_control (args : list str) (w : World) : World :=
  {| remote_calls := remote_calls w ++ [args];
     screen_draws := screen_draws w;
     wall_clock := wall_clock w;
     clock_reads := clock_reads w |}.

(** [time.time()] *)
Definition time_time (w : World) : float * World :=
  (wall_clock w (clock_reads w),
   {| remote_calls := remote_calls w;
      screen_draws := screen_draws w;
      wall_clock := wall_clock w;
      clock_reads := S (clock_reads w) |}).

(** [str(n)] for an integer. *)
Definition str_of_int (n : Z) : str := py (NilZero.string_of_int (Z.to_int n)).

(** ** The search handler *)

Module Search.

(** The attributes of a [Search] object; [quit_code] is what [quit_loop]
    of the host's handler records. *)
Record t := {
  cached_values : gmap (list N) (list N);
  window_ids : list Z;
  error : str;
  line_edit : LineEdit.t;
  text_marked : bool;
  mode : str;
  prompt : str;
  _last_mark_text : str;
  _last_mark_time : float;
  quit_code : option Z
}.

Definition MARK_DEBOUNCE_INTERVAL : float := 0x1.999999999999ap-5%float.

Definition set_cached_values (v : gmap (list N) (list N)) (self : t) : t :=
  {| cached_values := v; window_ids := window_ids self; error := error self;
     line_edit := line_edit self; text_marked := text_marked self;
     mode := mode self; prompt := prompt self;
     _last_mark_text := _last_mark_text self;
     _last_mark_time := _last_mark_time self; quit_code := quit_code self |}.

Definition set_line_edit (v : LineEdit.t) (self : t) : t :=
  {| cached_values := cached_values self; window_ids := window_ids self;
     error := error self; line_edit := v; text_marked := text_marked self;
     mode := mode self; prompt := prompt self;
     _last_mark_text := _last_mark_text self;
     _last_mark_time := _last_mark_time self; quit_code := quit_code self |}.

Definition set_text_marked (v : bool) (self : t) : t :=
  {| cached_values := cached_values self; window_ids := window_ids self;
     error := error self; line_edit := line_edit self; text_marked := v;
     mode := mode self; prompt := prompt self;
     _last_mark_text := _last_mark_text self;
     _last_mark_time := _last_mark_time self; quit_code := quit_code self |}.

Definition set_mode (v : str) (self : t) : t :=
  {| cached_values := cached_values self; window_ids := window_ids self;
     error := error self; line_edit := line_edit self;
     text_marked := text_marked self; mode := v; prompt := prompt self;
     _last_mark_text := _last_mark_text self;
     _last_mark_time := _last_mark_time self; quit_code := quit_code self |}.

Definition set_prompt (v : str) (self : t) : t :=
  {| cached_values := cached_values self; window_ids := window_ids self;
     error := error self; line_edit := line_edit self;
     text_marked := text_marked self; mode := mode self; prompt := v;
     _last_mark_text := _last_mark_text self;
     _last_mark_time := _last_mark_time self; quit_code := quit_code self |}.

Definition set_last_mark (text : str) (time : float) (self : t) : t :=
  {| cached_values := cached_values self; window_ids := window_ids self;
     error := error self; line_edit := line_edit self;
     text_marked := text_marked self; mode := mode self;
     prompt := prompt self; _last_mark_text := text;
     _last_mark_time := time; quit_code := quit_code self |}.

(** [quit_loop] of the host's handler. *)
Definition quit_loop (return_code : Z) (self : t) : t :=
  {| cached_values := cached_values self; window_ids := window_ids self;
     error := error self; line_edit := line_edit self;
     text_marked := text_marked self; mode := mode self;
     prompt := prompt self; _last_mark_text := _last_mark_text self;
     _last_mark_time := _last_mark_time self; quit_code := Some return_code |}.

Definition update_prompt (self : t) : t :=
  set_prompt (if bool_decide (mode self = py "regex") then py "~> " else py "=> ") self.

(** Writing to the terminal leaves the object as it was: the reversed
    rendering of a marked input is put back before [draw_screen] returns. *)
Definition draw_screen (self : t) (w : World) : t * World :=
  (self,
   {| remote_calls := remote_calls w;
      screen_draws := S (screen_draws w);
      wall_clock := wall_clock w;
      clock_reads := clock_reads w |}).

Definition match_args (self : t) : list str :=
  map (fun window_id => py "--match=id:" ++ str_of_int window_id) (window_ids self).

Definition remove_mark (self : t) (w : World) : World :=
  fold_left
    (fun w match_arg => call_remote_control [py "remove-marker"; match_arg] w)
    (match_args self) w.

Section Methods.
Context `{UnicodeData}.

(** [call_remote_control] runs a subprocess and does not raise
    [SystemExit], so the handler of that exception never runs. *)
Definition mark (self : t) (w : World) : t * World :=
  if bool_decide (window_ids self = []) then (self, w)
  else
    let text := LineEdit.current_input (line_edit self) in
    let '(current_time, w) := time_time w in
    if bool_decide (text = _last_mark_text self)
       && PrimFloat.ltb (PrimFloat.sub current_time (_last_mark_time self))
                        MARK_DEBOUNCE_INTERVAL
    then (self, w)
    else
      let self := set_last_mark text current_time self in
      if negb (bool_decide (text = [])) then
        let match_case := if islower text then py "i" else py "" in
        let match_type := match_case ++ mode self in
        (self,
         fold_left
           (fun w match_arg =>
              call_remote_control
                [py "create-marker"; match_arg; match_type; py "1"; text] w)
           (match_args self) w)
      else (self, remove_mark self w).

Definition refresh (self : t) (w : World) : t * World :=
  let '(self, w) := draw_screen self w in
  mark self w.

Definition __init__ (cached_values : gmap (list N) (list N))
    (window_ids : list Z) (error : str) (w : World) : t * World :=
  let last_search := default (py "") (cached_values !! py "last_search") in
  let self :=
    {| cached_values := cached_values; window_ids := window_ids;
       error := error;
       line_edit := LineEdit.add_text last_search LineEdit.new;
       text_marked := negb (bool_decide (last_search = []));
       mode := default (py "text") (cached_values !! py "mode");
       prompt := [];
       _last_mark_text := py "";
       _last_mark_time := 0%float;
       quit_code := None |} in
  mark (update_prompt self) w.

Definition switch_mode (self : t) : t :=
  let self :=
    set_mode (if bool_decide (mode self = py "text") then py "regex" else py "text") self in
  let self :=
    set_cached_values (<[py "mode" := mode self]> (cached_values self)) self in
  update_prompt self.

Definition on_text (text : str) (in_bracketed_paste : bool)
    (self : t) (w : World) : t * World :=
  let self :=
    if text_marked self
    then set_line_edit (LineEdit.clear (line_edit self)) (set_text_marked false self)
    else self in
  refresh
    (set_line_edit (LineEdit.on_text text in_bracketed_paste (line_edit self)) self) w.

Definition modifier_keys : list str :=
  [py "TAB"; py "LEFT_CONTROL"; py "RIGHT_CONTROL"; py "LEFT_ALT";
   py "RIGHT_ALT"; py "LEFT_SHIFT"; py "RIGHT_SHIFT"; py "LEFT_SUPER";
   py "RIGHT_SUPER"].

Definition _should_clear_mark (key_event : KeyEventType) (self : t) : bool :=
  text_marked self
  && bool_decide (type key_event = PRESS)
  && negb (bool_decide (key key_event ∈ modifier_keys)).

Definition _delete_word (use_whitespace : bool) (self : t) (w : World) : t * World :=
  let '(before, _) := LineEdit.split_at_cursor (line_edit self) in
  let '(end_pattern, delimiter) :=
    if use_whitespace then (SPACE_PATTERN_END, Some 32%N)
    else (NON_ALPHANUM_PATTERN_END, None) in
  let start :=
    match reindex before end_pattern true with
    | Returns (start, _) => start
    | Raises _ => -1
    end in
  let line_edit' :=
    match delimiter with
    | Some delimiter =>
        let space :=
          match str_rindex (slice_to before start) delimiter with
          | Returns space => space
          | Raises _ => 0
          end in
        LineEdit.backspace (len before - space) (line_edit self)
    | None =>
        if negb (start =? -1) then
          LineEdit.backspace (len before - start) (line_edit self)
        else
          match reindex before NON_ALPHANUM_PATTERN true with
          | Returns (start, _) =>
              LineEdit.backspace (len before - (start + 1)) (line_edit self)
          | Raises _ => LineEdit.backspace (len before) (line_edit self)
          end
    end in
  refresh (set_line_edit line_edit' self) w.

Definition _move_word_left (use_whitespace : bool) (self : t) (w : World) : t * World :=
  let '(before, _) := LineEdit.split_at_cursor (line_edit self) in
  let '(end_pattern, delimiter) :=
    if use_whitespace then (SPACE_PATTERN_END, Some 32%N)
    else (NON_ALPHANUM_PATTERN_END, None) in
  let start :=
    match reindex before end_pattern true with
    | Returns (start, _) => start
    | Raises _ => -1
    end in
  let line_edit' :=
    match delimiter with
    | Some delimiter =>
        let space :=
          match str_rindex (slice_to before start) delimiter with
          | Returns space => space
          | Raises _ => 0
          end in
        LineEdit.left (len before - space) (line_edit self)
    | None =>
        if negb (start =? -1) then
          LineEdit.left (len before - start) (line_edit self)
        else
          match reindex before NON_ALPHANUM_PATTERN true with
          | Returns (start, _) =>
              LineEdit.left (len before - (start + 1)) (line_edit self)
          | Raises _ => LineEdit.left (len before) (line_edit self)
          end
    end in
  refresh (set_line_edit line_edit' self) w.

Definition _move_word_right (use_whitespace : bool) (self : t) (w : World) : t * World :=
  let '(_, after) := LineEdit.split_at_cursor (line_edit self) in
  let '(start_pattern, delimiter) :=
    if use_whitespace then (SPACE_PATTERN_START, Some 32%N)
    else (NON_ALPHANUM_PATTERN_START, None) in
  let end_ :=
    match reindex after start_pattern false with
    | Returns (_, end_) => end_
    | Raises _ => 0
    end in
  let line_edit' :=
    match delimiter with
    | Some delimiter =>
        let space :=
          match str_index (slice_from after end_) delimiter with
          | Returns i => i + 1
          | Raises _ => len after
          end in
        LineEdit.right space (line_edit self)
    | None =>
        if 0 <? end_ then LineEdit.right end_ (line_edit self)
        else
          match reindex after NON_ALPHANUM_PATTERN false with
          | Returns (_, end_) => LineEdit.right (end_ - 1) (line_edit self)
          | Raises _ => LineEdit.right (len after) (line_edit self)
          end
    end in
  refresh (set_line_edit line_edit' self) w.

Definition quit (return_code : Z) (self : t) (w : World) : t * World :=
  let self :=
    set_cached_values
      (<[py "last_search" := LineEdit.current_input (line_edit self)]>
         (cached_values self)) self in
  let w := remove_mark self w in
  let w :=
    if negb (return_code =? 0) then
      fold_left
        (fun w match_arg =>
           call_remote_control [py "scroll-window"; match_arg; py "end"] w)
        (match_args self) w
    else w in
  (quit_loop return_code self, w).

Definition on_interrupt (self : t) (w : World) : t * World := quit 1 self w.

Definition on_eot (self : t) (w : World) : t * World := quit 1 self w.

Definition on_resize (self : t) (w : World) : t * World := refresh self w.

Context `{Host}.

Definition _navigate_to_match (forward : bool) (self : t) (w : World) : t * World :=
  let args := if forward then [py "next"] else [] in
  (self,
   fold_left
     (fun w match_arg =>
        call_remote_control ([py "kitten"; match_arg; SCROLLMARK_FILE] ++ args) w)
     (match_args self) w).

Definition on_key (key_event : KeyEventType) (self : t) (w : World) : t * World :=
  let '(self, w) :=
    if _should_clear_mark key_event self
    then refresh (set_text_marked false self) w
    else (self, w) in
  let '(handled, line_edit') := LineEdit_on_key key_event (line_edit self) in
  let self := set_line_edit line_edit' self in
  if handled then refresh self w
  else if matches key_event (py "ctrl+u") then
    refresh (set_line_edit (LineEdit.clear (line_edit self)) self) w
  else if matches key_event (py "ctrl+a") then
    refresh (set_line_edit (LineEdit.home (line_edit self)) self) w
  else if matches key_event (py "ctrl+e") then
    refresh (set_line_edit (LineEdit.end_ (line_edit self)) self) w
  else if matches key_event (py "ctrl+backspace") || matches key_event (py "ctrl+w") then
    _delete_word true self w
  else if matches key_event (py "ctrl+left") || matches key_event (py "ctrl+b") then
    _move_word_left true self w
  else if matches key_event (py "ctrl+right") || matches key_event (py "ctrl+f") then
    _move_word_right true self w
  else if matches key_event (py "alt+backspace") || matches key_event (py "alt+w") then
    _delete_word false self w
  else if matches key_event (py "alt+left") || matches key_event (py "alt+b") then
    _move_word_left false self w
  else if matches key_event (py "alt+right") || matches key_event (py "alt+f") then
    _move_word_right false self w
  else if matches key_event (py "tab") then
    refresh (switch_mode self) w
  else if matches key_event (py "up") || matches key_event (py "f3") then
    _navigate_to_match false self w
  else if matches key_event (py "down") || matches key_event (py "shift+f3") then
    _navigate_to_match true self w
  else if matches key_event (py "enter") then quit 0 self w
  else if matches key_event (py "esc") then quit 1 self w
  else (self, w).
End Methods.

End Search.

(** ** The entry point *)

(** The answer of [kitty @ ls] once [json.loads] has read it: the OS
    windows, their tabs, and the windows of each tab with their [id] and
    [is_focused] entries. *)
Module LsJson.

Record window := { id : Z; is_focused : bool }.

Record tab := { windows : list window }.

Record os_window := { tabs : list tab }.

End LsJson.

(** What the interpreter fixes for [main]: [str.isdigit] above ASCII, and
    [int] of a string, which may raise [ValueError]. *)
Class PyInt := {
  uni_isdigit : N -> bool;
  int : str -> outcome Z
}.

(** [s.isdigit()]: at least one character, and every character a digit. *)
Definition isdigit `{PyInt} (s : str) : bool :=
  negb (bool_decide (s = []))
  && forallb (fun c => if (c <? 128)%N then between 48 57 c else uni_isdigit c) s.

(** The innermost loop of the search for the current tab: the windows of
    [tab], left to right, until one has the given id. *)
Fixpoint find_in_windows (window_id : Z) (tab : LsJson.tab)
    (kitty_windows : list LsJson.window) (current_tab : option LsJson.tab)
    : option LsJson.tab :=
  match kitty_windows with
  | [] => current_tab
  | kitty_window :: rest =>
      if LsJson.id kitty_window =? window_id then Some tab
      else find_in_windows window_id tab rest current_tab
  end.

(** The loop over the tabs of one OS window; it stops at the first tab that
    was found. *)
Fixpoint find_in_tabs (window_id : Z) (tabs : list LsJson.tab)
    (current_tab : option LsJson.tab) : option LsJson.tab :=
  match tabs with
  | [] => current_tab
  | tab :: rest =>
      let current_tab :=
        find_in_windows window_id tab (LsJson.windows tab) current_tab in
      match current_tab with
      | Some _ => current_tab
      | None => find_in_tabs window_id rest current_tab
      end
  end.

(** The loop over the OS windows. *)
Fixpoint find_in_os_windows (window_id : Z) (ls_json : list LsJson.os_window)
    (current_tab : option LsJson.tab) : option LsJson.tab :=
  match ls_json with
  | [] => current_tab
  | os_window :: rest =>
      let current_tab := find_in_tabs window_id (LsJson.tabs os_window) current_tab in
      match current_tab with
      | Some _ => current_tab
      | None => find_in_os_windows window_id rest current_tab
      end
  end.

(** [run(["kitty", "@", "ls"], stdout=PIPE)]: one more call of [kitty @];
    what it prints is the argument [ls_json] of [main]. *)
Definition run_kitty_ls (w : World) : World := call_remote_control [py "ls"] w.

(** [main], up to the handler it hands to the event loop of the host.  The
    stored values of [cached_values_for("search")] and the answer of
    [kitty @ ls] are arguments; an exception of [int] leaves [main]. *)
Definition main `{UnicodeData} `{PyInt} (args : list str)
    (ls_json : list LsJson.os_window) (cached_values : gmap (list N) (list N))
    (w : World) : outcome (Search.t * World) :=
  let w :=
    call_remote_control
      [py "resize-window"; py "--self"; py "--axis=vertical"; py "--increment"; py "-100"]
      w in
  let error := py "" in
  let selected : outcome (str * list Z * World) :=
    if (len args <? 2) || negb (isdigit (nth 1 args [])) then
      Returns (py "Error: Window id must be provided as the first argument.", [], w)
    else
      match int (nth 1 args []) with
      | Raises e => Raises e
      | Returns window_id =>
          let window_ids := [window_id] in
          if (2 <? len args) && bool_decide (nth 2 args [] = py "--all-windows") then
            let w := run_kitty_ls w in
            match find_in_os_windows window_id ls_json None with
            | Some current_tab =>
                Returns
                  (error,
                   map LsJson.id
                     (filter (fun w => negb (LsJson.is_focused w) = true)
                        (LsJson.windows current_tab)),
                   w)
            | None =>
                Returns (py "Error: Could not find the window id provided.", [], w)
            end
          else Returns (error, window_ids, w)
      end in
  match selected with
  | Raises e => Raises e
  | Returns (error, window_ids, w) =>
      Returns (Search.__init__ cached_values window_ids error w)
  end.

(** ** The callbacks of the handler

    The event loop of the host calls the handler back, once per event. *)
Inductive callback :=
| OnKey (key_event : KeyEventType)
| OnText (text : str) (in_bracketed_paste : bool)
| OnResize
| OnInterrupt
| OnEot.

Definition handle `{UnicodeData} `{Host} (cb : callback) (self : Search.t)
    (w : World) : Search.t * World :=
  match cb with
  | OnKey key_event => Search.on_key key_event self w
  | OnText text in_bracketed_paste => Search.on_text text in_bracketed_paste self w
  | OnResize => Search.on_resize self w
  | OnInterrupt => Search.on_interrupt self w
  | OnEot => Search.on_eot self w
  end.

(** Any sequence of callbacks, in order. *)
Definition handle_all `{UnicodeData} `{Host} (cbs : list callback)
    (self : Search.t) (w : World) : Search.t * World :=
  fold_left (fun r cb => handle cb r.1 r.2) cbs (self, w).

(** ** Running the definitions on ASCII text *)

(** Tables that know no character beyond ASCII. *)
Definition ascii_only : UnicodeData :=
  {| uni_isspace := fun _ => false;
     uni_isalnum := fun _ => false;
     uni_isdecimal := fun _ => false;
     uni_isupper_or_title := fun _ => false;
     uni_islower := fun _ => false |}.

(** [int] on the strings of ASCII digits, which are the only strings that
    [main] passes to it when there are no digits beyond ASCII. *)
Definition ascii_int : PyInt :=
  {| uni_isdigit := fun _ => false;
     int := fun s =>
       if negb (bool_decide (s = [])) && forallb (between 48 57) s
       then Returns (fold_left (fun n c => 10 * n + Z.of_N (c - 48)) s 0)
       else Raises (ValueError "invalid literal for int() with base 10") |}.


(** A world in which nothing has happened yet. *)
Definition world0 (clock : nat -> float) : World :=
  {| remote_calls := []; screen_draws := 0; wall_clock := clock; clock_reads := 0 |}.

(** A session over [text] with the cursor at [cursor], nothing marked. *)
Definition session (windows : list Z) (text : str) (cursor : Z) : Search.t :=
  {| Search.cached_values := ∅; Search.window_ids := windows;
     Search.error := [];
     Search.line_edit := {| LineEdit.current_input := text; LineEdit.cursor_pos := cursor |};
     Search.text_marked := false; Search.mode := py "text";
     Search.prompt := py "=> "; Search._last_mark_text := [];
     Search._last_mark_time := 0%float; Search.quit_code := None |}.

Definition text_of (r : Search.t * World) : str :=
  LineEdit.current_input (Search.line_edit r.1).

Definition cursor_of (r : Search.t * World) : Z :=
  LineEdit.cursor_pos (Search.line_edit r.1).

(** The same session with another input line. *)
Definition with_input (text : str) (cursor : Z) (self : Search.t) : Search.t :=
  Search.set_line_edit
    {| LineEdit.current_input := text; LineEdit.cursor_pos := cursor |} self.

(** A clock that stands still, and the clock that shows the given readings
    in turn. *)
Definition noon (n : nat) : float := 1000%float.


(** A host whose line editor handles no key itself. *)
Definition plain_host : Host :=
  {| LineEdit_on_key := fun _ line_edit => (false, line_edit);
     SCROLLMARK_FILE := py "scroll-mark.py" |}.

(** A press of the key named [name] that matches the one shortcut
    [shortcut]. *)
Definition press (name shortcut : string) : KeyEventType :=
  {| type := PRESS; key := py name;
     matches := fun spec => bool_decide (spec = py shortcut) |}.

(** ** Vocabulary of the statements *)

(** The calls of one marker request that is carried out: a [create-marker]
    per target window for a query, a [remove-marker] per target window for
    the empty input. *)
Definition mark_requests `{UnicodeData} (self : Search.t) : list (list str) :=
  let text := LineEdit.current_input (Search.line_edit self) in
  if bool_decide (text = []) then
    map (fun match_arg => [py "remove-marker"; match_arg]) (Search.match_args self)
  else
    map (fun match_arg =>
           [py "create-marker"; match_arg;
            (if islower text then py "i" else py "") ++ Search.mode self;
            py "1"; text])
        (Search.match_args self).

(** Whether [mark] takes the debounce exit at clock reading [now]. *)
Definition debounced (self : Search.t) (now : float) : bool :=
  bool_decide (LineEdit.current_input (Search.line_edit self) = Search._last_mark_text self)
  && PrimFloat.ltb (PrimFloat.sub now (Search._last_mark_time self))
                   Search.MARK_DEBOUNCE_INTERVAL.

(** The prompt shows the glyph of the mode: [~> ] for regex, [=> ]
    otherwise. *)
Definition prompt_ok (self : Search.t) : Prop :=
  Search.prompt self
  = if bool_decide (Search.mode self = py "regex") then py "~> " else py "=> ".

(** A call of [kitty @] whose second argument selects one of the target
    windows of [self]. *)
Definition addressed (self : Search.t) (call : list str) : Prop :=
  exists match_arg,
    match_arg ∈ Search.match_args self /\ call !! 1%nat = Some match_arg.

(** What every callback keeps, from a session [self0] in a world [w0] to a
    later session in a later world: the target windows and the error text;
    a mark that is down; a prompt that shows the mode; and the calls made
    so far, to which only calls addressed to target windows are added. *)
Definition keeps (self0 : Search.t) (w0 : World) (self : Search.t) (w : World) : Prop :=
  Search.window_ids self = Search.window_ids self0
  /\ Search.error self = Search.error self0
  /\ (Search.text_marked self0 = false -> Search.text_marked self = false)
  /\ (prompt_ok self0 -> prompt_ok self)
  /\ exists new,
       remote_calls w = remote_calls w0 ++ new /\ Forall (addressed self0) new.

(** * Properties *)

(** ** The span finder *)

Section Regex.
Implicit Types (p : Pattern) (s : str) (m : Match).

Lemma run_le cls s : (re.run cls s <= length s)%nat.
Proof. induction s as [|c s IH]; simpl; [lia|]. destruct (cls c); simpl; lia. Qed.

Lemma backtrack_bounds j s n :
  re.backtrack j s = Some n -> (1 <= n <= j)%nat.
Proof.
  induction j as [|j IH]; [discriminate|].
  cbn [re.backtrack]. destruct (re.at_dollar _).
  - intros [= <-]. lia.
  - intros Hn. apply IH in Hn. lia.
Qed.

(** A match is never empty and stays inside the text. *)
Lemma match_at_bounds p i s n :
  re.match_at p i s = Some n -> (1 <= n <= re.run (char_class p) s)%nat.
Proof.
  unfold re.match_at.
  destruct (anchor_start p && negb (i =? 0)%nat); [discriminate|].
  destruct (anchor_end p).
  - apply backtrack_bounds.
  - destruct (Nat.eqb_spec (re.run (char_class p) s) 0); [discriminate|].
    intros [= <-]. lia.
Qed.


(** [search] finds what [finditer] yields first. *)
Lemma search_from_head p i s :
  re.search_from p i s = head (re.finditer_from p i 0 s).
Proof.
  revert i. induction s as [|c s IH]; intros i; [reflexivity|].
  cbn [re.search_from re.finditer_from].
  destruct (re.match_at p i (c :: s)); [reflexivity|]. apply IH.
Qed.

Lemma search_head p s : re.search p s = head (re.finditer p s).
Proof. apply search_from_head. Qed.

Lemma finditer_from_bounds p i skip s m :
  m ∈ re.finditer_from p i skip s ->
  (i + skip <= m_start m /\ m_start m < m_end m <= i + length s)%nat.
Proof.
  revert i skip. induction s as [|c s IH]; intros i skip.
  - cbn. intros Hm. by apply elem_of_nil in Hm.
  - cbn [re.finditer_from]. destruct skip as [|k].
    + destruct (re.match_at p i (c :: s)) as [n|] eqn:Hn.
      * apply match_at_bounds in Hn.
        pose proof (run_le (char_class p) (c :: s)) as Hr.
        intros [->|Hm]%elem_of_cons.
        -- simpl in *. lia.
        -- apply IH in Hm. simpl in *. lia.
      * intros Hm. apply IH in Hm. simpl. lia.
    + intros Hm. apply IH in Hm. simpl. lia.
Qed.

Lemma finditer_bounds p s m :
  m ∈ re.finditer p s -> (m_start m < m_end m <= length s)%nat.
Proof. intros Hm. apply finditer_from_bounds in Hm. lia. Qed.

Lemma last_elem_of {A} (l : list A) (x : A) : last l = Some x -> x ∈ l.
Proof.
  intros Hl. destruct (last_Some l x) as [[l' ->] _]; [done|].
  apply elem_of_app. right. by apply list_elem_of_singleton.
Qed.

Lemma head_elem_of {A} (l : list A) (x : A) : head l = Some x -> x ∈ l.
Proof. destruct l; [discriminate|]. intros [= ->]. apply list_elem_of_here. Qed.

Lemma reindex_returns_bounds text p right a b :
  reindex text p right = Returns (a, b) -> 0 <= a < b /\ b <= len text.
Proof.
  unfold reindex, span, len. destruct right; simpl.
  - destruct (last (re.finditer p text)) as [m|] eqn:Hl; [|discriminate].
    intros [= <- <-]. apply last_elem_of, finditer_bounds in Hl. lia.
  - rewrite search_head.
    destruct (head (re.finditer p text)) as [m|] eqn:Hl; [|discriminate].
    intros [= <- <-]. apply head_elem_of, finditer_bounds in Hl. lia.
Qed.
End Regex.

Lemma reindex_unfold (text : str) (pattern : Pattern) (right : bool) :
  reindex text pattern right =
    match (if right then last (re.finditer pattern text)
           else head (re.finditer pattern text)) with
    | Some m => Returns (span m)
    | None => Raises (ValueError "No pattern match found")
    end.
Proof.
  unfold reindex. destruct right; simpl; [reflexivity|]. by rewrite search_head.
Qed.

Lemma reindex_raises_iff (text : str) (pattern : Pattern) (right : bool) :
  (exists e, reindex text pattern right = Raises e) <-> re.finditer pattern text = [].
Proof.
  rewrite reindex_unfold. split.
  - intros [e He]. destruct right.
    + destruct (last (re.finditer pattern text)) eqn:Hl; [discriminate|].
      by apply last_None in Hl.
    + destruct (re.finditer pattern text); [done|discriminate].
  - intros ->. destruct right; simpl; eauto.
Qed.

(** C9. For every text and every delimiter pattern, [reindex] returns the
    half-open span of the last match of the forward enumeration when
    [right] is set and of the first match otherwise, and it raises
    [ValueError] exactly when the enumeration is empty.  A span that is
    returned is not empty and lies inside the text. *)
Theorem reindex_first_or_last (text : str) (pattern : Pattern) (right : bool) :
  reindex text pattern right =
    match (if right then last (re.finditer pattern text)
           else head (re.finditer pattern text)) with
    | Some m => Returns (span m)
    | None => Raises (ValueError "No pattern match found")
    end
  /\ ((exists e, reindex text pattern right = Raises e) <-> re.finditer pattern text = [])
  /\ (forall a b, reindex text pattern right = Returns (a, b) -> 0 <= a < b /\ b <= len text).
Proof.
  split; [apply reindex_unfold|]. split; [apply reindex_raises_iff|].
  intros a b. apply reindex_returns_bounds.
Qed.

(** ** What a method leaves untouched *)

Section Frames.
Context `{UnicodeData}.
Implicit Types (self : Search.t) (w : World).

Lemma set_last_mark_same self :
  Search.set_last_mark (Search._last_mark_text self) (Search._last_mark_time self) self
  = self.
Proof. by destruct self. Qed.

(** [mark] writes the two debounce attributes and nothing else. *)
Lemma mark_self self w :
  exists text time, (Search.mark self w).1 = Search.set_last_mark text time self.
Proof.
  unfold Search.mark.
  destruct (bool_decide _); [eexists _, _; symmetry; apply set_last_mark_same|].
  simpl. destruct (_ && _); [eexists _, _; symmetry; apply set_last_mark_same|].
  destruct (negb _); simpl; eauto.
Qed.

Lemma refresh_self self w :
  exists text time, (Search.refresh self w).1 = Search.set_last_mark text time self.
Proof. unfold Search.refresh, Search.draw_screen. apply mark_self. Qed.

Lemma refresh_line_edit self w :
  Search.line_edit (Search.refresh self w).1 = Search.line_edit self.
Proof. by destruct (refresh_self self w) as (? & ? & ->). Qed.

Lemma refresh_text_marked self w :
  Search.text_marked (Search.refresh self w).1 = Search.text_marked self.
Proof. by destruct (refresh_self self w) as (? & ? & ->). Qed.

(** The input line after a word motion depends on the input line before
    it and on nothing else. *)
Lemma _delete_word_frame use_whitespace self w self' w' :
  Search.line_edit self = Search.line_edit self' ->
  Search.line_edit (Search._delete_word use_whitespace self w).1
  = Search.line_edit (Search._delete_word use_whitespace self' w').1.
Proof.
  intros Heq. unfold Search._delete_word. rewrite <- Heq.
  destruct (LineEdit.split_at_cursor _) as [before after].
  destruct use_whitespace; rewrite !refresh_line_edit; reflexivity.
Qed.

Lemma _move_word_left_frame use_whitespace self w self' w' :
  Search.line_edit self = Search.line_edit self' ->
  Search.line_edit (Search._move_word_left use_whitespace self w).1
  = Search.line_edit (Search._move_word_left use_whitespace self' w').1.
Proof.
  intros Heq. unfold Search._move_word_left. rewrite <- Heq.
  destruct (LineEdit.split_at_cursor _) as [before after].
  destruct use_whitespace; rewrite !refresh_line_edit; reflexivity.
Qed.

Lemma _move_word_right_frame use_whitespace self w self' w' :
  Search.line_edit self = Search.line_edit self' ->
  Search.line_edit (Search._move_word_right use_whitespace self w).1
  = Search.line_edit (Search._move_word_right use_whitespace self' w').1.
Proof.
  intros Heq. unfold Search._move_word_right. rewrite <- Heq.
  destruct (LineEdit.split_at_cursor _) as [before after].
  destruct use_whitespace; rewrite !refresh_line_edit; reflexivity.
Qed.
End Frames.

(** Reduce a word motion on a literal input line to a run of the
    definitions. *)
Ltac run_motion frame :=
  unfold text_of, cursor_of, with_input;
  lazymatch goal with
  | |- context [ (?f ?b (Search.set_line_edit
                          {| LineEdit.current_input := ?text;
                             LineEdit.cursor_pos := ?cursor |} ?self) ?w).1 ] =>
      rewrite (frame b
                 (Search.set_line_edit
                    {| LineEdit.current_input := text;
                       LineEdit.cursor_pos := cursor |} self)
                 w (session [] text cursor) (world0 noon) eq_refl)
  end;
  vm_compute; reflexivity.

(** ** Deleting the previous unit *)

(** C1, as the code has it.  On ["hello world"] with the cursor at the end,
    deleting the previous whitespace-delimited unit leaves ["hello"]: the
    deletion starts at the last space, so the word goes together with the
    space in front of it. *)
Theorem delete_word_hello_world `{UnicodeData} (self : Search.t) (w : World) :
  text_of (Search._delete_word true (with_input (py "hello world") 11 self) w)
  = py "hello".
Proof. run_motion _delete_word_frame. Qed.

(** C1 as the specification words it fails: the buffer is not ["hello "]. *)
Lemma delete_word_hello_world_drops_space :
  text_of (@Search._delete_word ascii_only true
             (session [7] (py "hello world") 11) (world0 noon))
  <> py "hello ".
Proof. vm_compute. discriminate. Qed.

(** C4. With the non-alphanumeric class, ["foo-bar"] with the cursor at
    the end becomes ["foo-"], and ["foo-"] with the cursor at the end becomes
    ["foo"]. *)
Theorem delete_token_foo_bar `{UnicodeData} (self : Search.t) (w : World) :
  text_of (Search._delete_word false (with_input (py "foo-bar") 7 self) w) = py "foo-"
  /\ text_of (Search._delete_word false (with_input (py "foo-") 4 self) w) = py "foo".
Proof.
  split.
  - run_motion _delete_word_frame.
  - run_motion _delete_word_frame.
Qed.

(** ** Where the word motions stop *)

Section Boundaries.
Implicit Types (p : Pattern) (s : str) (m : Match).

Lemma index_from_bounds i s c j :
  index_from i s c = Some j -> i <= j < i + len s.
Proof.
  unfold len. revert i. induction s as [|x s IH]; intros i; [discriminate|].
  cbn [index_from]. destruct (N.eqb x c).
  - intros [= <-]. simpl. lia.
  - intros Hj. apply IH in Hj. simpl. lia.
Qed.

Lemma rindex_from_bounds i s c j :
  rindex_from i s c = Some j -> i <= j < i + len s.
Proof.
  unfold len. revert i. induction s as [|x s IH]; intros i; [discriminate|].
  cbn [rindex_from]. destruct (rindex_from (i + 1) s c) as [k|] eqn:Hk.
  - intros [= <-]. apply IH in Hk. simpl. lia.
  - destruct (N.eqb x c); [|discriminate]. intros [= <-]. simpl. lia.
Qed.

Lemma len_slice_to s k : len (slice_to s k) <= len s.
Proof. unfold len, slice_to. rewrite length_take. lia. Qed.

(** A match that [finditer] yields is a match at its own start. *)
Lemma finditer_from_match_at p i skip s m :
  m ∈ re.finditer_from p i skip s ->
  (i <= m_start m)%nat
  /\ re.match_at p (m_start m) (drop (m_start m - i) s)
     = Some (m_end m - m_start m)%nat.
Proof.
  revert i skip. induction s as [|c s IH]; intros i skip.
  - cbn. intros Hm. by apply elem_of_nil in Hm.
  - assert (Hrec : forall k,
               m ∈ re.finditer_from p (S i) k s ->
               (i <= m_start m)%nat
               /\ re.match_at p (m_start m) (drop (m_start m - i) (c :: s))
                  = Some (m_end m - m_start m)%nat).
    { intros k Hm. apply IH in Hm as [Hle Hm]. split; [lia|].
      replace (m_start m - i)%nat with (S (m_start m - S i)) by lia. exact Hm. }
    cbn [re.finditer_from]. destruct skip as [|k]; [|apply Hrec].
    destruct (re.match_at p i (c :: s)) as [n|] eqn:Hn; [|apply Hrec].
    intros [->|Hm]%elem_of_cons; [|by eapply Hrec].
    cbn [m_start m_end]. split; [lia|].
    replace (i - i)%nat with O by lia.
    replace (i + n - i)%nat with n by lia. exact Hn.
Qed.

(** If the pattern matches at some offset, [search] finds a match. *)
Lemma search_from_complete p i k s n :
  (k < length s)%nat ->
  re.match_at p (i + k) (drop k s) = Some n ->
  re.search_from p i s <> None.
Proof.
  revert i k. induction s as [|c s IH]; intros i k Hk Hn; [simpl in Hk; lia|].
  cbn [re.search_from]. destruct (re.match_at p i (c :: s)) eqn:Hi; [done|].
  destruct k as [|k].
  - rewrite Nat.add_0_r in Hn. simpl in Hn. congruence.
  - apply (IH (S i) k); [simpl in Hk; lia|].
    replace (S i + k)%nat with (i + S k)%nat by lia. exact Hn.
Qed.

Lemma backtrack_whole j s :
  j = length s -> j <> O -> re.backtrack j s = Some j.
Proof.
  intros -> Hj. destruct (length s) as [|j] eqn:Hlen; [done|].
  cbn [re.backtrack]. rewrite <- Hlen, drop_all. reflexivity.
Qed.

(** A run of the class that reaches the end of the text is also a match of
    the same class anchored at the end. *)
Lemma match_at_end_anchored cls i s n :
  re.match_at {| anchor_start := false; char_class := cls; anchor_end := false |} i s
  = Some n ->
  n = length s ->
  re.match_at {| anchor_start := false; char_class := cls; anchor_end := true |} i s
  = Some n.
Proof.
  unfold re.match_at. cbn [anchor_start anchor_end char_class andb].
  destruct (Nat.eqb_spec (re.run cls s) 0); [discriminate|].
  intros [= Hn] Hlen. rewrite Hn. apply backtrack_whole; lia.
Qed.

(** When the class has no match that ends the text, the last match of the
    class anywhere stops short of the end. *)
Lemma last_match_stops_short cls text a b :
  (exists e, reindex text {| anchor_start := false; char_class := cls; anchor_end := true |} true
             = Raises e) ->
  reindex text {| anchor_start := false; char_class := cls; anchor_end := false |} true
  = Returns (a, b) ->
  0 <= a /\ a + 1 <= b /\ b < len text.
Proof.
  intros Hend Hlast.
  pose proof (reindex_returns_bounds _ _ _ _ _ Hlast) as Hb.
  split; [lia|]. split; [lia|].
  destruct (Z.eq_dec b (len text)) as [->|]; [exfalso|lia].
  apply reindex_raises_iff in Hend.
  revert Hlast. unfold reindex. cbn [negb].
  destruct (last (re.finditer _ text)) as [m|] eqn:Hm; [|discriminate].
  unfold span, len. intros [= <- Hmend]. apply Nat2Z.inj in Hmend.
  pose proof (last_elem_of _ _ Hm) as Hin.
  pose proof (finditer_bounds _ _ _ Hin) as Hbounds.
  apply finditer_from_match_at in Hin as [_ Hat].
  rewrite Nat.sub_0_r in Hat.
  apply match_at_end_anchored in Hat;
    [|rewrite length_drop; lia].
  eapply (search_from_complete _ 0 (m_start m) text); [| |].
  - lia.
  - exact Hat.
  - change (re.search_from ?p 0 text) with (re.search p text).
    rewrite search_head, Hend. reflexivity.
Qed.

End Boundaries.

Section Motions.
Context `{UnicodeData}.
Implicit Types (self : Search.t) (w : World).

Lemma split_at_cursor_len (le : LineEdit.t) before after :
  LineEdit.wf le ->
  LineEdit.split_at_cursor le = (before, after) ->
  len before = LineEdit.cursor_pos le
  /\ len after = len (LineEdit.current_input le) - LineEdit.cursor_pos le.
Proof.
  unfold LineEdit.wf, LineEdit.split_at_cursor, len. intros Hwf [= <- <-].
  rewrite length_take, length_drop. lia.
Qed.

(** The left motion keeps the text, never moves right, and moves at least
    one position unless the cursor is at the start. *)
Lemma _move_word_left_cursor use_whitespace self w :
  LineEdit.wf (Search.line_edit self) ->
  let c := LineEdit.cursor_pos (Search.line_edit self) in
  let r := Search._move_word_left use_whitespace self w in
  text_of r = LineEdit.current_input (Search.line_edit self)
  /\ 0 <= cursor_of r <= c
  /\ (0 < c -> cursor_of r < c).
Proof.
  intros Hwf c r. subst r. unfold text_of, cursor_of, Search._move_word_left.
  destruct (LineEdit.split_at_cursor _) as [before after] eqn:Hsplit.
  destruct (split_at_cursor_len _ _ _ Hwf Hsplit) as [Hbefore _].
  fold c in Hbefore. unfold LineEdit.wf in Hwf. fold c in Hwf.
  destruct use_whitespace; rewrite refresh_line_edit;
    cbn [Search.line_edit Search.set_line_edit].
  - (* whitespace *)
    match goal with |- context [len before - ?x] => set (space := x) end.
    assert (0 <= space /\ (0 < c -> space < c)) as Hspace.
    { subst space. unfold str_rindex.
      destruct (rindex_from 0 _ 32%N) as [j|] eqn:Hj; [|lia].
      apply rindex_from_bounds in Hj.
      pose proof (len_slice_to before
        match reindex before SPACE_PATTERN_END true with
        | Returns (start, _) => start
        | Raises _ => -1
        end). lia. }
    cbn [LineEdit.left LineEdit.current_input LineEdit.cursor_pos]. fold c.
    split; [reflexivity | lia].
  - (* non-alphanumeric *)
    destruct (reindex before NON_ALPHANUM_PATTERN_END true) as [[start e]|err] eqn:Hend.
    + apply reindex_returns_bounds in Hend.
      destruct (Z.eqb_spec start (-1)); [lia|].
      cbn [negb LineEdit.left LineEdit.current_input LineEdit.cursor_pos]. fold c.
      split; [reflexivity | lia].
    + change (negb (-1 =? -1)) with false. cbv iota.
      destruct (reindex before NON_ALPHANUM_PATTERN true) as [[start e]|err'] eqn:Hlast.
      * destruct (last_match_stops_short is_non_alphanum before start e) as (? & ? & ?);
          [by eexists | exact Hlast |].
        cbn [LineEdit.left LineEdit.current_input LineEdit.cursor_pos]. fold c.
        split; [reflexivity | lia].
      * cbn [LineEdit.left LineEdit.current_input LineEdit.cursor_pos]. fold c.
        split; [reflexivity | lia].
Qed.

End Motions.

(** ** Moving left, then right *)




(** ** Moving right over whitespace *)

Lemma search_from_anchored_later (p : Pattern) (i : nat) (s : str) :
  anchor_start p = true -> (0 < i)%nat -> re.search_from p i s = None.
Proof.
  intros Hp. revert i. induction s as [|c s IH]; intros i Hi; [reflexivity|].
  cbn [re.search_from]. unfold re.match_at. rewrite Hp.
  destruct (Nat.eqb_spec i 0); [lia|]. cbn [negb andb]. apply IH. lia.
Qed.

(** A class anchored at the start matches its longest run there, or
    nothing. *)
Lemma reindex_start_anchored (cls : char -> bool) (text : str) :
  reindex text {| anchor_start := true; char_class := cls; anchor_end := false |} false
  = if Nat.eqb (re.run cls text) 0
    then Raises (ValueError "No pattern match found")
    else Returns (0, Z.of_nat (re.run cls text)).
Proof.
  unfold reindex, re.search. cbn [negb].
  destruct text as [|c s]; [reflexivity|].
  cbn [re.search_from]. unfold re.match_at.
  cbn [anchor_start anchor_end char_class andb negb Nat.eqb].
  destruct (Nat.eqb (re.run cls (c :: s)) 0); [|reflexivity].
  rewrite search_from_anchored_later; [reflexivity | reflexivity | lia].
Qed.

(** The distance of the whitespace motion to the right, for every input
    line: with [i] the index of the first space in [after] behind its
    leading whitespace run, the cursor moves by [i + 1], whatever the length
    of that run; without such a space it moves to the end. *)
Lemma _move_word_right_whitespace `{UnicodeData} (self : Search.t) (w : World) :
  LineEdit.wf (Search.line_edit self) ->
  let s := LineEdit.current_input (Search.line_edit self) in
  let c := LineEdit.cursor_pos (Search.line_edit self) in
  let after := drop (Z.to_nat c) s in
  cursor_of (Search._move_word_right true self w)
  = Z.min (len s)
      (c + match index_from 0 (drop (re.run is_space after) after) 32%N with
           | Some i => i + 1
           | None => len after
           end).
Proof.
  intros Hwf s c after. unfold cursor_of, Search._move_word_right, LineEdit.split_at_cursor.
  fold s c after. rewrite refresh_line_edit.
  cbn [Search.line_edit Search.set_line_edit LineEdit.right LineEdit.cursor_pos
       LineEdit.current_input]. fold s c.
  unfold SPACE_PATTERN_START. rewrite reindex_start_anchored.
  assert (slice_from after
            match (if Nat.eqb (re.run is_space after) 0
                   then Raises (ValueError "No pattern match found")
                   else Returns (0, Z.of_nat (re.run is_space after))) with
            | Returns (_, end_) => end_
            | Raises _ => 0
            end
          = drop (re.run is_space after) after) as ->.
  { unfold slice_from, slice_bound.
    destruct (Nat.eqb_spec (re.run is_space after) 0) as [->|]; [reflexivity|].
    destruct (Z.ltb_spec (Z.of_nat (re.run is_space after)) 0); [lia|].
    by rewrite Nat2Z.id. }
  unfold str_index.
  destruct (index_from 0 _ 32%N) as [i|] eqn:Hi.
  - apply index_from_bounds in Hi. f_equal. lia.
  - unfold len. f_equal. lia.
Qed.

(** C3, at an input where the code departs from it.  On ["  foo bar"] with
    the cursor at the start, the leading whitespace run has length 2 and the
    first space after it has relative index 3; the cursor ends at offset 4
    (inside ["foo"]), not at offset 6 just past that space: the length of
    the leading run is not added to the distance. *)
Theorem move_word_right_leading_whitespace `{UnicodeData} (self : Search.t) (w : World) :
  cursor_of (Search._move_word_right true (with_input (py "  foo bar") 0 self) w) = 4.
Proof. run_motion _move_word_right_frame. Qed.

(** ** Marker requests *)

Section Marking.
Context `{UnicodeData}.
Implicit Types (self : Search.t) (w : World).

(** A loop of remote-control calls appends one call per element, in order,
    and touches nothing else. *)
Lemma remote_calls_fold {A} (f : A -> list str) (l : list A) w :
  fold_left (fun w a => call_remote_control (f a) w) l w
  = {| remote_calls := remote_calls w ++ map f l;
       screen_draws := screen_draws w;
       wall_clock := wall_clock w;
       clock_reads := clock_reads w |}.
Proof.
  revert w. induction l as [|a l IH]; intros w; cbn [fold_left map].
  - rewrite app_nil_r. by destruct w.
  - rewrite IH. unfold call_remote_control. cbn. by rewrite <- app_assoc.
Qed.

Lemma mark_skips self w :
  Search.window_ids self <> [] ->
  debounced self (wall_clock w (clock_reads w)) = true ->
  (Search.mark self w).1 = self
  /\ remote_calls (Search.mark self w).2 = remote_calls w.
Proof.
  intros Hwin Hskip. unfold Search.mark.
  rewrite bool_decide_eq_false_2 by done.
  cbn [time_time]. unfold debounced in Hskip. rewrite Hskip. done.
Qed.

Lemma mark_carries_out self w :
  Search.window_ids self <> [] ->
  debounced self (wall_clock w (clock_reads w)) = false ->
  (Search.mark self w).1
  = Search.set_last_mark (LineEdit.current_input (Search.line_edit self))
      (wall_clock w (clock_reads w)) self
  /\ remote_calls (Search.mark self w).2 = remote_calls w ++ mark_requests self.
Proof.
  intros Hwin Hgo. unfold Search.mark.
  rewrite bool_decide_eq_false_2 by done.
  cbn [time_time]. unfold debounced in Hgo. rewrite Hgo.
  unfold mark_requests, Search.remove_mark.
  destruct (bool_decide (LineEdit.current_input (Search.line_edit self) = []));
    cbn [negb fst snd]; rewrite remote_calls_fold; done.
Qed.


(** [str.islower] in words. *)
Lemma islower_from_iff cased (s : str) :
  islower_from cased s = true <->
  (cased = true \/ exists c, c ∈ s /\ is_lower c = true)
  /\ (forall c, c ∈ s -> is_upper_or_title c = false).
Proof.
  revert cased. induction s as [|x s IH]; intros cased; cbn [islower_from].
  - split.
    + intros ->. split; [by left|]. intros c Hc. by apply elem_of_nil in Hc.
    + intros [[->|(c & Hc & _)] _]; [done|]. by apply elem_of_nil in Hc.
  - destruct (is_upper_or_title x) eqn:Hx.
    + split; [discriminate|]. intros [_ Hall].
      rewrite Hall in Hx; [discriminate | apply list_elem_of_here].
    + rewrite IH. split.
      * intros [Hsome Hall]. split.
        -- destruct Hsome as [Hor|(c & Hc & Hl)].
           ++ apply orb_true_iff in Hor as [->|Hl]; [by left|].
              right. exists x. split; [apply list_elem_of_here | done].
           ++ right. exists c. split; [by apply list_elem_of_further | done].
        -- intros c [->|Hc]%elem_of_cons; [done | by apply Hall].
      * intros [Hsome Hall]. split.
        -- destruct Hsome as [->|(c & [->|Hc]%elem_of_cons & Hl)].
           ++ by left.
           ++ left. rewrite Hl. apply orb_true_r.
           ++ right. by exists c.
        -- intros c Hc. apply Hall. by apply list_elem_of_further.
Qed.

Lemma islower_iff (s : str) :
  islower s = true <->
  (exists c, c ∈ s /\ is_lower c = true)
  /\ (forall c, c ∈ s -> is_upper_or_title c = false).
Proof.
  unfold islower. rewrite islower_from_iff. split.
  - intros [[?|?] ?]; [discriminate | done].
  - intros [? ?]. split; [by right | done].
Qed.
End Marking.

(** C6 as the specification words it fails: the query ["123"] contains no
    uppercase character, yet its match type in text mode is ["text"], without
    the ["i"]. *)
Lemma mark_digits_without_flag :
  (forall c, c ∈ py "123" -> @is_upper_or_title ascii_only c = false)
  /\ remote_calls (@Search.mark ascii_only (session [7] (py "123") 3) (world0 noon)).2
     = [[py "create-marker"; py "--match=id:7"; py "text"; py "1"; py "123"]].
Proof.
  split; [|vm_compute; reflexivity].
  intros c Hc. apply list_elem_of_In in Hc. cbn in Hc.
  destruct Hc as [<-|[<-|[<-|[]]]]; reflexivity.
Qed.

(** C6, as the code has it.  A marker request for a non-empty query that is
    carried out sends, per target window, the match type made of the flag
    ["i"] followed by the mode name exactly when the query has at least one
    lowercase character and no upper- or titlecase character
    ([str.islower]), and the bare mode name otherwise. *)
Theorem mark_match_type `{UnicodeData} (self : Search.t) (w : World) :
  let text := LineEdit.current_input (Search.line_edit self) in
  Search.window_ids self <> [] ->
  text <> [] ->
  debounced self (wall_clock w (clock_reads w)) = false ->
  remote_calls (Search.mark self w).2
  = remote_calls w
    ++ map (fun match_arg =>
              [py "create-marker"; match_arg;
               (if islower text then py "i" else py "") ++ Search.mode self;
               py "1"; text])
           (Search.match_args self)
  /\ (islower text = true <->
      (exists c, c ∈ text /\ is_lower c = true)
      /\ (forall c, c ∈ text -> is_upper_or_title c = false)).
Proof.
  intros text Hwin Htext Hgo. split; [|apply islower_iff].
  destruct (mark_carries_out self w Hwin Hgo) as [_ ->].
  unfold mark_requests. fold text. by rewrite bool_decide_eq_false_2.
Qed.

Lemma mark_match_type_witness :
  let self := session [7] (py "abc") 3 in
  let text := LineEdit.current_input (Search.line_edit self) in
  remote_calls (@Search.mark ascii_only self (world0 noon)).2
  = [[py "create-marker"; py "--match=id:7"; py "itext"; py "1"; py "abc"]]
  /\ (@islower ascii_only text = true <->
      (exists c, c ∈ text /\ @is_lower ascii_only c = true)
      /\ (forall c, c ∈ text -> @is_upper_or_title ascii_only c = false)).
Proof.
  exact (@mark_match_type ascii_only (session [7] (py "abc") 3) (world0 noon)
           ltac:(discriminate) ltac:(discriminate) eq_refl).
Defined.

(** The two queries of the specification, in text mode. *)
Example mark_abc_Abc :
  remote_calls (@Search.mark ascii_only (session [7] (py "abc") 3) (world0 noon)).2
  = [[py "create-marker"; py "--match=id:7"; py "itext"; py "1"; py "abc"]]
  /\ remote_calls (@Search.mark ascii_only (session [7] (py "Abc") 3) (world0 noon)).2
     = [[py "create-marker"; py "--match=id:7"; py "text"; py "1"; py "Abc"]].
Proof. split; vm_compute; reflexivity. Qed.

(** ** The debounce *)




(** ** Leaving the session *)

Lemma remove_mark_calls (self : Search.t) (w : World) :
  remote_calls (Search.remove_mark self w)
  = remote_calls w
    ++ map (fun match_arg => [py "remove-marker"; match_arg]) (Search.match_args self).
Proof. unfold Search.remove_mark. by rewrite remote_calls_fold. Qed.


(** ** Starting the session *)

(** C10. The constructor sets [text_marked] exactly when the restored
    [last_search] is non-empty; and when it is non-empty and there is a
    target window, the constructor itself sends a [create-marker] for that
    term to every target window, with the smart-case match type. *)
Theorem init_marks_restored_term `{UnicodeData}
    (cached_values : gmap (list N) (list N)) (window_ids : list Z)
    (error : str) (w : World) :
  let last_search := default (py "") (cached_values !! py "last_search") in
  let mode := default (py "text") (cached_values !! py "mode") in
  let r := Search.__init__ cached_values window_ids error w in
  Search.text_marked r.1 = negb (bool_decide (last_search = []))
  /\ (last_search <> [] -> window_ids <> [] ->
      remote_calls r.2
      = remote_calls w
        ++ map (fun window_id =>
                  [py "create-marker"; py "--match=id:" ++ str_of_int window_id;
                   (if islower last_search then py "i" else py "") ++ mode;
                   py "1"; last_search])
               window_ids).
Proof.
  intros last_search mode r. subst r. unfold Search.__init__.
  fold last_search mode.
  match goal with |- context [Search.mark ?s w] => set (self := s) end.
  assert (LineEdit.current_input (Search.line_edit self) = last_search) as Htext.
  { subst self. cbn. apply app_nil_r. }
  split.
  - destruct (mark_self self w) as (tx & tm & ->). reflexivity.
  - intros Hlast Hwin.
    assert (Search.window_ids self <> []) as Hwin' by exact Hwin.
    assert (debounced self (wall_clock w (clock_reads w)) = false) as Hgo.
    { unfold debounced. rewrite Htext. subst self.
      cbn [Search._last_mark_text Search.update_prompt Search.set_prompt].
      by rewrite bool_decide_eq_false_2. }
    destruct (mark_carries_out self w Hwin' Hgo) as [_ ->].
    unfold mark_requests. rewrite Htext.
    rewrite bool_decide_eq_false_2 by done.
    unfold Search.match_args. rewrite map_map. reflexivity.
Qed.

Lemma init_marks_restored_term_witness :
  let cached_values : gmap (list N) (list N) := {[ py "last_search" := py "abc" ]} in
  let r := @Search.__init__ ascii_only cached_values [7] [] (world0 noon) in
  Search.text_marked r.1 = true
  /\ remote_calls r.2
     = [[py "create-marker"; py "--match=id:7"; py "itext"; py "1"; py "abc"]].
Proof.
  cbv zeta.
  pose proof (@init_marks_restored_term ascii_only
                {[ py "last_search" := py "abc" ]} [7] [] (world0 noon)) as [H1 H2].
  split; [exact H1|].
  exact (H2 ltac:(vm_compute; discriminate) ltac:(discriminate)).
Defined.

(** ** The restored-term mark and the keys *)

Section Keys.
Context `{UnicodeData} `{Host}.
Implicit Types (self : Search.t) (w : World).

Lemma _delete_word_text_marked use_whitespace self w :
  Search.text_marked (Search._delete_word use_whitespace self w).1
  = Search.text_marked self.
Proof.
  unfold Search._delete_word.
  destruct (LineEdit.split_at_cursor _) as [before after].
  destruct use_whitespace; by rewrite refresh_text_marked.
Qed.

Lemma _move_word_left_text_marked use_whitespace self w :
  Search.text_marked (Search._move_word_left use_whitespace self w).1
  = Search.text_marked self.
Proof.
  unfold Search._move_word_left.
  destruct (LineEdit.split_at_cursor _) as [before after].
  destruct use_whitespace; by rewrite refresh_text_marked.
Qed.

Lemma _move_word_right_text_marked use_whitespace self w :
  Search.text_marked (Search._move_word_right use_whitespace self w).1
  = Search.text_marked self.
Proof.
  unfold Search._move_word_right.
  destruct (LineEdit.split_at_cursor _) as [before after].
  destruct use_whitespace; by rewrite refresh_text_marked.
Qed.

(** Once the mark is down, no branch of the key dispatcher raises it. *)
Lemma on_key_keeps_unmarked key_event self w :
  Search._should_clear_mark key_event self = false ->
  Search.text_marked self = false ->
  Search.text_marked (Search.on_key key_event self w).1 = false.
Proof.
  intros Hclear Hmark. unfold Search.on_key. rewrite Hclear.
  destruct (LineEdit_on_key key_event (Search.line_edit self)) as [handled line_edit'].
  repeat match goal with
         | |- context [if ?b then _ else _] => destruct b
         end;
    rewrite ?refresh_text_marked, ?_delete_word_text_marked,
      ?_move_word_left_text_marked, ?_move_word_right_text_marked;
    exact Hmark.
Qed.

Lemma on_key_after_clearing key_event self w :
  Search._should_clear_mark key_event self = true ->
  Search.text_marked (Search.on_key key_event self w).1 = false.
Proof.
  intros Hclear. unfold Search.on_key. rewrite Hclear.
  pose proof (refresh_text_marked (Search.set_text_marked false self) w) as Hmark.
  destruct (Search.refresh (Search.set_text_marked false self) w) as [self1 w1].
  cbn [fst Search.set_text_marked Search.text_marked] in Hmark.
  destruct (LineEdit_on_key key_event (Search.line_edit self1)) as [handled line_edit'].
  repeat match goal with
         | |- context [if ?b then _ else _] => destruct b
         end;
    rewrite ?refresh_text_marked, ?_delete_word_text_marked,
      ?_move_word_left_text_marked, ?_move_word_right_text_marked;
    exact Hmark.
Qed.
End Keys.

(** C5 as the specification words it fails: a press of TAB, which is no
    modifier (it toggles the mode), leaves the mark up. *)
Lemma tab_press_keeps_mark :
  let self := Search.set_text_marked true (session [7] (py "abc") 3) in
  let r := @Search.on_key ascii_only plain_host (press "TAB" "tab") self (world0 noon) in
  Search.text_marked r.1 = true
  /\ Search.mode self = py "text" /\ Search.mode r.1 = py "regex".
Proof. cbv zeta. repeat split; vm_compute; reflexivity. Qed.

(** C5, as the code has it.  After any key press whose key is none of the
    eight modifier keys and not TAB, [text_marked] is false, whatever the
    key does otherwise. *)
Theorem on_key_clears_mark `{UnicodeData} `{Host}
    (key_event : KeyEventType) (self : Search.t) (w : World) :
  type key_event = PRESS ->
  key key_event ∉ Search.modifier_keys ->
  Search.text_marked (Search.on_key key_event self w).1 = false.
Proof.
  intros Hpress Hkey.
  destruct (Search._should_clear_mark key_event self) eqn:Hclear.
  - by apply on_key_after_clearing.
  - apply on_key_keeps_unmarked; [exact Hclear|].
    unfold Search._should_clear_mark in Hclear.
    rewrite (bool_decide_eq_true_2 _ Hpress) in Hclear.
    rewrite (bool_decide_eq_false_2 _ Hkey) in Hclear.
    by destruct (Search.text_marked self).
Qed.

Lemma on_key_clears_mark_witness :
  let self := Search.set_text_marked true (session [7] (py "abc") 3) in
  type (press "x" "x") = PRESS
  /\ (key (press "x" "x") ∉ Search.modifier_keys)
  /\ Search.text_marked self = true
  /\ Search.text_marked
       (@Search.on_key ascii_only plain_host (press "x" "x") self (world0 noon)).1
     = false.
Proof.
  cbv zeta.
  assert (key (press "x" "x") ∉ Search.modifier_keys) as Hkey.
  { intros Hin. apply list_elem_of_In in Hin. cbn in Hin.
    repeat destruct Hin as [Hin|Hin]; try discriminate Hin. exact Hin. }
  split; [reflexivity|]. split; [exact Hkey|]. split; [reflexivity|].
  exact (@on_key_clears_mark ascii_only plain_host (press "x" "x") _ (world0 noon)
           eq_refl Hkey).
Defined.

(** * Further properties of the code *)

(** ** Deleting is moving left and cutting *)

Section Deleting.
Context `{UnicodeData}.
Implicit Types (self : Search.t) (w : World).

(** [_delete_word] and [_move_word_left] compute the same count, one to
    delete and one to move. *)
Lemma _delete_word_count use_whitespace self w w' :
  exists num,
    Search.line_edit (Search._delete_word use_whitespace self w).1
    = LineEdit.backspace num (Search.line_edit self)
    /\ Search.line_edit (Search._move_word_left use_whitespace self w').1
       = LineEdit.left num (Search.line_edit self).
Proof.
  unfold Search._delete_word, Search._move_word_left.
  destruct (LineEdit.split_at_cursor _) as [before after].
  destruct use_whitespace; rewrite !refresh_line_edit;
    cbn [Search.line_edit Search.set_line_edit].
  - eexists. split; reflexivity.
  - destruct (negb _).
    + eexists. split; reflexivity.
    + destruct (reindex before NON_ALPHANUM_PATTERN true) as [[start e]|err];
        eexists; split; reflexivity.
Qed.

Lemma backspace_is_left_and_cut (num : Z) (le : LineEdit.t) :
  LineEdit.wf le ->
  let p := LineEdit.cursor_pos (LineEdit.left num le) in
  LineEdit.current_input (LineEdit.backspace num le)
  = take (Z.to_nat p) (LineEdit.current_input le)
    ++ drop (Z.to_nat (LineEdit.cursor_pos le)) (LineEdit.current_input le)
  /\ LineEdit.cursor_pos (LineEdit.backspace num le) = p.
Proof.
  intros Hwf p. subst p.
  unfold LineEdit.backspace, LineEdit.left, LineEdit.split_at_cursor, LineEdit.wf in *.
  destruct le as [s c]. cbn [LineEdit.current_input LineEdit.cursor_pos] in *.
  assert (len (take (Z.to_nat c) s) = c) as Hlen.
  { unfold len in *. rewrite length_take. lia. }
  rewrite Hlen. rewrite take_take.
  replace (Z.to_nat (c - Z.min (Z.max 0 num) c) `min` Z.to_nat c)%nat
    with (Z.to_nat (Z.max 0 (c - Z.max 0 num))) by lia.
  split; [reflexivity|].
  unfold len in *. rewrite length_take. lia.
Qed.
End Deleting.

(** X1. On an input line with the cursor inside the text, deleting the
    previous unit removes exactly the characters between the place where
    the motion to the left of the same class stops and the cursor: the text
    in front of that place and the text behind the cursor are kept, and the
    cursor ends at that place, inside the new text. *)
Theorem _delete_word_cuts_to_move_left `{UnicodeData} (use_whitespace : bool)
    (self : Search.t) (w w' : World) :
  LineEdit.wf (Search.line_edit self) ->
  let s := LineEdit.current_input (Search.line_edit self) in
  let c := LineEdit.cursor_pos (Search.line_edit self) in
  let p := cursor_of (Search._move_word_left use_whitespace self w') in
  let r := Search._delete_word use_whitespace self w in
  text_of r = take (Z.to_nat p) s ++ drop (Z.to_nat c) s
  /\ cursor_of r = p
  /\ LineEdit.wf (Search.line_edit r.1)
  /\ len (text_of r) = len s - (c - p).
Proof.
  intros Hwf s c p r.
  destruct (_delete_word_count use_whitespace self w w') as (num & Hdel & Hleft).
  destruct (backspace_is_left_and_cut num _ Hwf) as [Htext Hcur].
  destruct (_move_word_left_cursor use_whitespace self w' Hwf) as (_ & Hp & _).
  fold p c in Hp.
  assert (cursor_of r = p) as Hcr.
  { unfold cursor_of. subst r p. unfold cursor_of. by rewrite Hdel, Hleft. }
  assert (text_of r = take (Z.to_nat p) s ++ drop (Z.to_nat c) s) as Htr.
  { unfold text_of. subst r p. unfold cursor_of. by rewrite Hdel, Hleft. }
  assert (len (text_of r) = len s - (c - p)) as Hlen.
  { rewrite Htr. unfold LineEdit.wf in Hwf. fold s c in Hwf. unfold len in *.
    rewrite length_app, length_take, length_drop. lia. }
  split; [exact Htr|]. split; [exact Hcr|]. split; [|exact Hlen].
  unfold LineEdit.wf. fold (text_of r) (cursor_of r). rewrite Hcr, Hlen.
  unfold LineEdit.wf in Hwf. fold s c in Hwf. unfold len in *. lia.
Qed.

Lemma _delete_word_cuts_to_move_left_witness :
  let self := session [7] (py "ab cd ef") 5 in
  LineEdit.wf (Search.line_edit self)
  /\ text_of (@Search._delete_word ascii_only true self (world0 noon)) = py "ab ef"
  /\ cursor_of (@Search._delete_word ascii_only true self (world0 noon)) = 2.
Proof.
  cbv zeta.
  assert (LineEdit.wf (Search.line_edit (session [7] (py "ab cd ef") 5))) as Hwf.
  { vm_compute. split; intros Hc; discriminate Hc. }
  destruct (@_delete_word_cuts_to_move_left ascii_only true
              (session [7] (py "ab cd ef") 5) (world0 noon) (world0 noon) Hwf)
    as (Ht & Hc & _).
  split; [exact Hwf|]. split; [exact Ht | exact Hc].
Defined.

(** ** Where the whitespace motions stop *)

Section Stops.
Implicit Types (s : str) (c : char).

Lemma rindex_from_lookup i s c j :
  rindex_from i s c = Some j -> s !! Z.to_nat (j - i) = Some c.
Proof.
  revert i. induction s as [|x s IH]; intros i; [discriminate|].
  cbn [rindex_from]. destruct (rindex_from (i + 1) s c) as [k|] eqn:Hk.
  - intros [= <-]. pose proof (rindex_from_bounds _ _ _ _ Hk) as Hb.
    apply IH in Hk.
    replace (Z.to_nat (k - i)) with (S (Z.to_nat (k - (i + 1)))) by lia.
    exact Hk.
  - destruct (N.eqb_spec x c) as [->|]; [|discriminate].
    intros [= <-]. by replace (Z.to_nat (i - i)) with O by lia.
Qed.

Lemma index_from_lookup i s c j :
  index_from i s c = Some j ->
  s !! Z.to_nat (j - i) = Some c
  /\ forall k, (k < Z.to_nat (j - i))%nat -> s !! k <> Some c.
Proof.
  revert i. induction s as [|x s IH]; intros i; [discriminate|].
  cbn [index_from]. destruct (N.eqb_spec x c) as [->|Hx].
  - intros [= <-]. replace (Z.to_nat (i - i)) with O by lia.
    split; [reflexivity|]. intros k Hk. lia.
  - intros Hj. pose proof (index_from_bounds _ _ _ _ Hj) as Hb.
    apply IH in Hj as [Hat Hbefore].
    replace (Z.to_nat (j - i)) with (S (Z.to_nat (j - (i + 1)))) by lia.
    split; [exact Hat|]. intros [|k] Hk; cbn.
    + congruence.
    + apply Hbefore. lia.
Qed.

Lemma index_from_none i s c : index_from i s c = None -> c ∉ s.
Proof.
  revert i. induction s as [|x s IH]; intros i; cbn [index_from].
  - intros _ Hin. by apply elem_of_nil in Hin.
  - destruct (N.eqb_spec x c) as [->|Hx]; [discriminate|].
    intros Hn [->|Hin]%elem_of_cons; [done|]. by eapply IH.
Qed.

Lemma run_head_outside (cls : char -> bool) s :
  (forall x, head s = Some x -> cls x = false) -> re.run cls s = O.
Proof.
  destruct s as [|x s]; [reflexivity|]. intros Hx. cbn [re.run].
  by rewrite (Hx x eq_refl).
Qed.
End Stops.

(** X2. The whitespace motion to the left stops at the start of the line or
    directly in front of a space character. *)
Theorem _move_word_left_stops_at_space `{UnicodeData} (self : Search.t) (w : World) :
  LineEdit.wf (Search.line_edit self) ->
  let s := LineEdit.current_input (Search.line_edit self) in
  let p := cursor_of (Search._move_word_left true self w) in
  p = 0 \/ (0 <= p /\ s !! Z.to_nat p = Some 32%N).
Proof.
  intros Hwf s p. subst p. unfold cursor_of, Search._move_word_left.
  destruct (LineEdit.split_at_cursor _) as [before after] eqn:Hsplit.
  destruct (split_at_cursor_len _ _ _ Hwf Hsplit) as [Hbefore _].
  rewrite refresh_line_edit.
  cbn [Search.line_edit Search.set_line_edit LineEdit.left LineEdit.cursor_pos].
  unfold str_rindex.
  destruct (rindex_from 0 _ 32%N) as [j|] eqn:Hj.
  - right.
    pose proof (rindex_from_bounds _ _ _ _ Hj) as Hb.
    pose proof (len_slice_to before
      match reindex before SPACE_PATTERN_END true with
      | Returns (start, _) => start
      | Raises _ => -1
      end) as Hle.
    apply rindex_from_lookup in Hj. rewrite Z.sub_0_r in Hj.
    unfold slice_to in Hj. apply lookup_take_Some in Hj as [Hj _].
    assert (before = take (Z.to_nat (LineEdit.cursor_pos (Search.line_edit self))) s)
      as Hbe.
    { unfold LineEdit.split_at_cursor in Hsplit. by injection Hsplit as <- _. }
    rewrite Hbe in Hj. apply lookup_take_Some in Hj as [Hj _].
    match goal with
    | |- context [Z.max 0 ?x] => replace (Z.max 0 x) with j by lia
    end.
    split; [lia | exact Hj].
  - left. lia.
Qed.

Lemma _move_word_left_stops_at_space_witness :
  let self := session [7] (py "ab cd ef") 8 in
  LineEdit.wf (Search.line_edit self)
  /\ (cursor_of (@Search._move_word_left ascii_only true self (world0 noon)) = 0
      \/ (0 <= cursor_of (@Search._move_word_left ascii_only true self (world0 noon))
          /\ py "ab cd ef"
             !! Z.to_nat (cursor_of (@Search._move_word_left ascii_only true self (world0 noon)))
             = Some 32%N)).
Proof.
  cbv zeta.
  assert (LineEdit.wf (Search.line_edit (session [7] (py "ab cd ef") 8))) as Hwf.
  { vm_compute. split; intros Hc; discriminate Hc. }
  split; [exact Hwf|].
  exact (@_move_word_left_stops_at_space ascii_only
           (session [7] (py "ab cd ef") 8) (world0 noon) Hwf).
Defined.

(** X3. From a cursor that is not on a whitespace character, the whitespace
    motion to the right stops directly behind the first space at or after
    the cursor, or at the end of the text when no space follows. *)
Theorem _move_word_right_stops_behind_space `{UnicodeData} (self : Search.t) (w : World) :
  LineEdit.wf (Search.line_edit self) ->
  let s := LineEdit.current_input (Search.line_edit self) in
  let c := LineEdit.cursor_pos (Search.line_edit self) in
  let q := cursor_of (Search._move_word_right true self w) in
  (forall x, s !! Z.to_nat c = Some x -> is_space x = false) ->
  (q = len s /\ 32%N ∉ drop (Z.to_nat c) s)
  \/ (c < q <= len s
      /\ s !! Z.to_nat (q - 1) = Some 32%N
      /\ forall k, (Z.to_nat c <= k < Z.to_nat (q - 1))%nat -> s !! k <> Some 32%N).
Proof.
  intros Hwf s c q Hcur. subst q.
  rewrite (_move_word_right_whitespace self w Hwf). fold s c.
  unfold LineEdit.wf in Hwf. fold s c in Hwf.
  rewrite run_head_outside.
  2:{ intros x Hx. apply Hcur.
      by rewrite head_lookup, lookup_drop, Nat.add_0_r in Hx. }
  rewrite drop_0.
  assert (len (drop (Z.to_nat c) s) = len s - c) as Hlen.
  { unfold len in *. rewrite length_drop. lia. }
  destruct (index_from 0 (drop (Z.to_nat c) s) 32%N) as [i|] eqn:Hi.
  - right. pose proof (index_from_bounds _ _ _ _ Hi) as Hb.
    apply index_from_lookup in Hi as [Hat Hfirst].
    rewrite Z.sub_0_r in Hat, Hfirst. rewrite lookup_drop in Hat.
    replace (Z.min (len s) (c + (i + 1))) with (c + i + 1) by lia.
    split; [lia|]. split.
    + replace (Z.to_nat (c + i + 1 - 1)) with (Z.to_nat c + Z.to_nat i)%nat by lia.
      exact Hat.
    + intros k Hk.
      replace k with (Z.to_nat c + (k - Z.to_nat c))%nat by lia.
      rewrite <- lookup_drop. apply Hfirst. lia.
  - left. apply index_from_none in Hi. split; [lia | exact Hi].
Qed.

Lemma _move_word_right_stops_behind_space_witness :
  let self := session [7] (py "ab cd ef") 4 in
  let s := py "ab cd ef" in
  let q := cursor_of (@Search._move_word_right ascii_only true self (world0 noon)) in
  LineEdit.wf (Search.line_edit self)
  /\ (forall x, s !! Z.to_nat 4 = Some x -> @is_space ascii_only x = false)
  /\ ((q = len s /\ 32%N ∉ drop (Z.to_nat 4) s)
      \/ (4 < q <= len s
          /\ s !! Z.to_nat (q - 1) = Some 32%N
          /\ forall k, (Z.to_nat 4 <= k < Z.to_nat (q - 1))%nat -> s !! k <> Some 32%N)).
Proof.
  cbv zeta.
  assert (LineEdit.wf (Search.line_edit (session [7] (py "ab cd ef") 4))) as Hwf.
  { vm_compute. split; intros Hc; discriminate Hc. }
  assert (forall x, py "ab cd ef" !! Z.to_nat 4 = Some x -> @is_space ascii_only x = false)
    as Hcur.
  { intros x [= <-]. reflexivity. }
  split; [exact Hwf|]. split; [exact Hcur|].
  exact (@_move_word_right_stops_behind_space ascii_only
           (session [7] (py "ab cd ef") 4) (world0 noon) Hwf Hcur).
Defined.

(** ** Anchored patterns and runs *)

Section Runs.
Implicit Types (cls : char -> bool) (s : str).

Lemma run_all_iff cls s :
  re.run cls s = length s <-> Forall (fun x => cls x = true) s.
Proof.
  induction s as [|x s IH]; cbn [re.run length].
  - split; [constructor | reflexivity].
  - destruct (cls x) eqn:Hx.
    + rewrite Forall_cons. split.
      * intros [= Hr]. split; [exact Hx | by apply IH].
      * intros [_ Hall]. f_equal. by apply IH.
    + split; [discriminate|]. intros [Hc _]%Forall_cons. congruence.
Qed.

Lemma run_app cls l r :
  re.run cls (l ++ r)
  = if Nat.eqb (re.run cls l) (length l) then (length l + re.run cls r)%nat
    else re.run cls l.
Proof.
  induction l as [|x l IH]; [reflexivity|].
  cbn [app re.run length]. destruct (cls x); [|reflexivity].
  rewrite IH. cbn [Nat.eqb]. by destruct (Nat.eqb _ _).
Qed.

(** The character that ends a run is outside the class. *)
Lemma run_stops cls s :
  (re.run cls s < length s)%nat ->
  exists x, s !! re.run cls s = Some x /\ cls x = false.
Proof.
  induction s as [|x s IH]; cbn [re.run length]; [lia|].
  destruct (cls x) eqn:Hx.
  - intros Hlt. apply IH. lia.
  - intros _. by exists x.
Qed.

Lemma backtrack_none j s :
  (forall k, (1 <= k <= j)%nat -> re.at_dollar (drop k s) = false) ->
  re.backtrack j s = None.
Proof.
  induction j as [|j IH]; [reflexivity|]. intros Hall.
  cbn [re.backtrack]. rewrite Hall by lia. apply IH. intros k Hk. apply Hall. lia.
Qed.

(** A class that contains the newline character, anchored at the end,
    matches at an offset exactly when the rest of the text is a non-empty
    run of the class, and then it matches all of it. *)
Lemma match_at_end_anchored_spec cls i s :
  cls 10%N = true ->
  re.match_at {| anchor_start := false; char_class := cls; anchor_end := true |} i s
  = if Nat.eqb (re.run cls s) (length s) && negb (Nat.eqb (length s) 0)
    then Some (length s) else None.
Proof.
  intros Hnl. unfold re.match_at. cbn [anchor_start anchor_end char_class andb].
  destruct (Nat.eqb_spec (re.run cls s) (length s)) as [Heq|Hne].
  - destruct (Nat.eqb_spec (length s) 0) as [H0|H0]; cbn [negb andb].
    + by rewrite Heq, H0.
    + rewrite Heq. by apply backtrack_whole.
  - cbn [andb]. pose proof (run_le cls s) as Hle.
    destruct (run_stops cls s) as (x & Hx & Hout); [lia|].
    apply backtrack_none. intros k Hk.
    destruct (drop k s) as [|y [|z rest]] eqn:Hd; cbn [re.at_dollar].
    + apply (f_equal length) in Hd. rewrite length_drop in Hd. simpl in Hd. lia.
    + assert (k = re.run cls s) as ->.
      { apply (f_equal length) in Hd. rewrite length_drop in Hd. simpl in Hd. lia. }
      assert (y = x) as ->.
      { apply (f_equal head) in Hd. rewrite head_lookup, lookup_drop, Nat.add_0_r in Hd.
        cbn in Hd. congruence. }
      destruct (N.eqb_spec x 10) as [->|]; [congruence | reflexivity].
    + reflexivity.
Qed.

Lemma finditer_from_skip_all (p : Pattern) i skip s :
  (length s <= skip)%nat -> re.finditer_from p i skip s = [].
Proof.
  revert i skip. induction s as [|x s IH]; intros i skip Hs; [reflexivity|].
  cbn [re.finditer_from]. destruct skip as [|k]; [simpl in Hs; lia|].
  apply IH. simpl in Hs. lia.
Qed.

Lemma finditer_from_end_anchored cls i s :
  cls 10%N = true ->
  re.finditer_from {| anchor_start := false; char_class := cls; anchor_end := true |} i 0 s
  = let t := re.run cls (reverse s) in
    if Nat.eqb t 0 then []
    else [{| m_start := i + (length s - t); m_end := i + length s |}].
Proof.
  intros Hnl. revert i. induction s as [|x s IH]; intros i; [reflexivity|].
  cbn [re.finditer_from]. rewrite match_at_end_anchored_spec by exact Hnl.
  rewrite reverse_cons, run_app. pose proof (run_le cls (reverse s)) as Hle.
  rewrite length_reverse in *.
  destruct (Nat.eqb_spec (re.run cls (x :: s)) (length (x :: s))) as [Hall|Hnot];
    cbn [andb negb Nat.eqb length].
  - apply run_all_iff in Hall. apply Forall_cons in Hall as [Hx Hall].
    assert (re.run cls (reverse s) = length s) as Hrev.
    { rewrite <- (length_reverse s). apply run_all_iff. by apply Forall_reverse. }
    rewrite Hrev, Nat.eqb_refl. cbn [re.run]. rewrite Hx.
    rewrite finditer_from_skip_all by (simpl; lia).
    replace (length s + 1)%nat with (S (length s)) by lia. cbn [Nat.eqb].
    do 2 f_equal. lia.
  - rewrite IH. cbv zeta.
    destruct (Nat.eqb_spec (re.run cls (reverse s)) (length s)) as [Hrev|Hrev].
    + assert (cls x = false) as Hx.
      { destruct (cls x) eqn:Hx; [|reflexivity]. exfalso. apply Hnot.
        apply run_all_iff. apply Forall_cons. split; [exact Hx|].
        rewrite <- (length_reverse s) in Hrev. apply run_all_iff in Hrev.
        apply Forall_reverse in Hrev. by rewrite reverse_involutive in Hrev. }
      cbn [re.run]. rewrite Hx, Nat.add_0_r, Hrev.
      destruct (Nat.eqb_spec (length s) 0); [reflexivity|]. do 2 f_equal; lia.
    + destruct (Nat.eqb_spec (re.run cls (reverse s)) 0); [reflexivity|].
      do 2 f_equal; lia.
Qed.

(** Searching from the right with such a pattern finds the longest run of
    the class that ends the text. *)
Lemma reindex_end_anchored cls (text : str) :
  cls 10%N = true ->
  reindex text {| anchor_start := false; char_class := cls; anchor_end := true |} true
  = let t := re.run cls (reverse text) in
    if Nat.eqb t 0 then Raises (ValueError "No pattern match found")
    else Returns (len text - Z.of_nat t, len text).
Proof.
  intros Hnl. unfold reindex, re.finditer. cbn [negb].
  rewrite finditer_from_end_anchored by exact Hnl. cbv zeta.
  pose proof (run_le cls (reverse text)) as Hle. rewrite length_reverse in Hle.
  destruct (Nat.eqb (re.run cls (reverse text)) 0); [reflexivity|].
  cbn [last]. unfold span, len. cbn [m_start m_end]. do 2 f_equal. lia.
Qed.
End Runs.

(** X4. With either end pattern of the source ([\s+$] and [[^\w\d]+$]),
    [reindex] from the right returns the span of the longest run of the
    class that ends the text, and raises when the text is empty or ends
    outside the class; a final newline makes no difference, since both
    classes contain it. *)
Theorem reindex_end_patterns `{UnicodeData} (text : str) :
  let spaces := re.run is_space (reverse text) in
  let others := re.run is_non_alphanum (reverse text) in
  reindex text SPACE_PATTERN_END true
  = (if Nat.eqb spaces 0 then Raises (ValueError "No pattern match found")
     else Returns (len text - Z.of_nat spaces, len text))
  /\ reindex text NON_ALPHANUM_PATTERN_END true
     = (if Nat.eqb others 0 then Raises (ValueError "No pattern match found")
        else Returns (len text - Z.of_nat others, len text)).
Proof.
  split.
  - apply (reindex_end_anchored is_space). reflexivity.
  - apply (reindex_end_anchored is_non_alphanum). reflexivity.
Qed.

(** ** Token motions over punctuation *)

(** X5. When the character in front of the cursor is not alphanumeric, the
    token motion to the left moves over the whole run of such characters
    that ends at the cursor and no further, and deleting the previous token
    removes exactly that run. *)
Theorem token_left_over_punctuation `{UnicodeData} (self : Search.t) (w w' : World) :
  LineEdit.wf (Search.line_edit self) ->
  let s := LineEdit.current_input (Search.line_edit self) in
  let c := LineEdit.cursor_pos (Search.line_edit self) in
  let t := Z.of_nat (re.run is_non_alphanum (reverse (take (Z.to_nat c) s))) in
  0 < t ->
  cursor_of (Search._move_word_left false self w) = c - t
  /\ text_of (Search._delete_word false self w')
     = take (Z.to_nat (c - t)) s ++ drop (Z.to_nat c) s
  /\ cursor_of (Search._delete_word false self w') = c - t.
Proof.
  intros Hwf s c t Ht.
  assert (cursor_of (Search._move_word_left false self w) = c - t) as Hleft.
  { unfold cursor_of, Search._move_word_left, LineEdit.split_at_cursor.
    fold s c. rewrite refresh_line_edit.
    cbn [Search.line_edit Search.set_line_edit].
    unfold NON_ALPHANUM_PATTERN_END.
    rewrite (reindex_end_anchored is_non_alphanum) by reflexivity. cbv zeta.
    fold t.
    pose proof (run_le is_non_alphanum (reverse (take (Z.to_nat c) s))) as Hle.
    rewrite length_reverse in Hle.
    assert (len (take (Z.to_nat c) s) = c) as Hlen.
    { unfold LineEdit.wf in Hwf. fold s c in Hwf. unfold len in *.
      rewrite length_take. lia. }
    destruct (Nat.eqb_spec (re.run is_non_alphanum (reverse (take (Z.to_nat c) s))) 0);
      [lia|].
    rewrite Hlen.
    destruct (Z.eqb_spec (c - t) (-1)) as [Hm|_].
    { unfold len in Hlen. lia. }
    cbn [negb LineEdit.left LineEdit.cursor_pos]. fold c.
    unfold len in Hlen. lia. }
  destruct (_delete_word_count false self w' w) as (num & Hdel & Hmove).
  destruct (backspace_is_left_and_cut num _ Hwf) as [Htext Hcur].
  unfold cursor_of in Hleft. rewrite Hmove in Hleft.
  split; [unfold cursor_of; by rewrite Hmove|].
  unfold text_of, cursor_of. rewrite Hdel. fold s c in Htext.
  rewrite Hleft in Htext, Hcur. done.
Qed.

Lemma token_left_over_punctuation_witness :
  let self := session [7] (py "foo--") 5 in
  LineEdit.wf (Search.line_edit self)
  /\ 0 < Z.of_nat (re.run (@is_non_alphanum ascii_only) (reverse (take (Z.to_nat 5) (py "foo--"))))
  /\ cursor_of (@Search._move_word_left ascii_only false self (world0 noon)) = 3
  /\ text_of (@Search._delete_word ascii_only false self (world0 noon)) = py "foo".
Proof.
  cbv zeta.
  assert (LineEdit.wf (Search.line_edit (session [7] (py "foo--") 5))) as Hwf.
  { vm_compute. split; intros Hc; discriminate Hc. }
  assert (0 < Z.of_nat (re.run (@is_non_alphanum ascii_only)
                          (reverse (take (Z.to_nat 5) (py "foo--"))))) as Ht.
  { vm_compute. reflexivity. }
  destruct (@token_left_over_punctuation ascii_only (session [7] (py "foo--") 5)
              (world0 noon) (world0 noon) Hwf Ht) as (Hl & Hd & _).
  split; [exact Hwf|]. split; [exact Ht|]. split; [exact Hl | exact Hd].
Defined.

(** X6. When the character at the cursor is not alphanumeric, the token
    motion to the right moves over the whole run of such characters that
    starts at the cursor and no further. *)
Theorem token_right_over_punctuation `{UnicodeData} (self : Search.t) (w : World) :
  LineEdit.wf (Search.line_edit self) ->
  let s := LineEdit.current_input (Search.line_edit self) in
  let c := LineEdit.cursor_pos (Search.line_edit self) in
  let r := Z.of_nat (re.run is_non_alphanum (drop (Z.to_nat c) s)) in
  0 < r ->
  cursor_of (Search._move_word_right false self w) = c + r.
Proof.
  intros Hwf s c r Hr.
  unfold cursor_of, Search._move_word_right, LineEdit.split_at_cursor.
  fold s c. rewrite refresh_line_edit.
  cbn [Search.line_edit Search.set_line_edit].
  unfold NON_ALPHANUM_PATTERN_START. rewrite reindex_start_anchored. fold r.
  pose proof (run_le is_non_alphanum (drop (Z.to_nat c) s)) as Hle.
  rewrite length_drop in Hle.
  destruct (Nat.eqb_spec (re.run is_non_alphanum (drop (Z.to_nat c) s)) 0); [lia|].
  destruct (Z.ltb_spec 0 r); [|lia].
  cbn [LineEdit.right LineEdit.cursor_pos LineEdit.current_input]. fold s c.
  unfold LineEdit.wf in Hwf. fold s c in Hwf. unfold len in *. lia.
Qed.

Lemma token_right_over_punctuation_witness :
  let self := session [7] (py "a--b") 1 in
  LineEdit.wf (Search.line_edit self)
  /\ 0 < Z.of_nat (re.run (@is_non_alphanum ascii_only) (drop (Z.to_nat 1) (py "a--b")))
  /\ cursor_of (@Search._move_word_right ascii_only false self (world0 noon)) = 1 + 2.
Proof.
  cbv zeta.
  assert (LineEdit.wf (Search.line_edit (session [7] (py "a--b") 1))) as Hwf.
  { vm_compute. split; intros Hc; discriminate Hc. }
  assert (0 < Z.of_nat (re.run (@is_non_alphanum ascii_only)
                          (drop (Z.to_nat 1) (py "a--b")))) as Hr.
  { vm_compute. reflexivity. }
  split; [exact Hwf|]. split; [exact Hr|].
  exact (@token_right_over_punctuation ascii_only (session [7] (py "a--b") 1)
           (world0 noon) Hwf Hr).
Defined.

Section FirstRun.
Implicit Types (cls : char -> bool) (s : str).

(** Without anchors, the first match is the first run of the class: it
    starts where the characters outside the class end. *)
Lemma search_from_first_run cls i s :
  let a := re.run (fun x => negb (cls x)) s in
  re.search_from {| anchor_start := false; char_class := cls; anchor_end := false |} i s
  = if Nat.eqb a (length s) then None
    else Some {| m_start := i + a; m_end := i + a + re.run cls (drop a s) |}.
Proof.
  revert i. induction s as [|x s IH]; intros i; [reflexivity|].
  cbn [re.search_from]. unfold re.match_at.
  cbn [anchor_start anchor_end char_class andb re.run length].
  destruct (cls x) eqn:Hx; cbn [negb Nat.eqb].
  - cbn [drop re.run]. rewrite Hx. do 2 f_equal; lia.
  - rewrite IH. cbv zeta. cbn [drop].
    destruct (Nat.eqb _ (length s)); [reflexivity|]. do 2 f_equal; lia.
Qed.

Lemma reindex_first_run cls (text : str) :
  let a := re.run (fun x => negb (cls x)) text in
  reindex text {| anchor_start := false; char_class := cls; anchor_end := false |} false
  = if Nat.eqb a (length text) then Raises (ValueError "No pattern match found")
    else Returns (Z.of_nat a, Z.of_nat (a + re.run cls (drop a text))).
Proof.
  unfold reindex, re.search. cbn [negb]. rewrite search_from_first_run. cbv zeta.
  destruct (Nat.eqb _ (length text)); reflexivity.
Qed.
End FirstRun.

(** X7. When the character at the cursor is alphanumeric (or the cursor is
    at the end), the token motion to the right passes the alphanumeric run
    of length [a] that starts at the cursor and stops in front of the last
    character of the run of [b] non-alphanumeric characters behind it: [a +
    b - 1] positions to the right, which is the end of the word exactly when
    one such character follows it.  Without any such character behind the
    word, it stops at the end of the text. *)
Theorem token_right_from_word `{UnicodeData} (self : Search.t) (w : World) :
  LineEdit.wf (Search.line_edit self) ->
  let s := LineEdit.current_input (Search.line_edit self) in
  let c := LineEdit.cursor_pos (Search.line_edit self) in
  let after := drop (Z.to_nat c) s in
  let a := re.run (fun x => negb (is_non_alphanum x)) after in
  let b := re.run is_non_alphanum (drop a after) in
  re.run is_non_alphanum after = O ->
  cursor_of (Search._move_word_right false self w)
  = (if Nat.eqb a (length after) then len s else c + Z.of_nat a + Z.of_nat b - 1)
  /\ (a < length after -> 1 <= b)%nat.
Proof.
  intros Hwf s c after a b Hr.
  assert (a < length after -> 1 <= b)%nat as Hb.
  { intros Ha. subst b.
    destruct (run_stops (fun x => negb (is_non_alphanum x)) after Ha) as (x & Hx & Hout).
    fold a in Hx. apply negb_false_iff in Hout.
    destruct (drop a after) as [|y rest] eqn:Hd.
    - apply (f_equal length) in Hd. rewrite length_drop in Hd. simpl in Hd. lia.
    - apply (f_equal head) in Hd.
      rewrite head_lookup, lookup_drop, Nat.add_0_r, Hx in Hd.
      injection Hd as <-. cbn [re.run]. rewrite Hout. lia. }
  split; [|exact Hb].
  unfold cursor_of, Search._move_word_right, LineEdit.split_at_cursor.
  fold s c after. rewrite refresh_line_edit.
  cbn [Search.line_edit Search.set_line_edit].
  unfold NON_ALPHANUM_PATTERN_START, NON_ALPHANUM_PATTERN.
  rewrite reindex_start_anchored, Hr. cbn [Nat.eqb].
  change (0 <? 0) with false. cbv iota.
  rewrite reindex_first_run. cbv zeta. fold a b.
  pose proof (run_le (fun x => negb (is_non_alphanum x)) after) as Ha. fold a in Ha.
  pose proof (run_le is_non_alphanum (drop a after)) as Hbl. fold b in Hbl.
  rewrite length_drop in Hbl.
  assert (len after = len s - c) as Hlen.
  { unfold LineEdit.wf in Hwf. fold s c in Hwf. unfold len in *. subst after.
    rewrite length_drop. lia. }
  unfold LineEdit.wf in Hwf. fold s c in Hwf.
  destruct (Nat.eqb_spec a (length after)) as [Heq|Hne];
    cbn [LineEdit.right LineEdit.cursor_pos LineEdit.current_input]; fold s c.
  - unfold len in *. lia.
  - specialize (Hb ltac:(lia)). unfold len in *. lia.
Qed.

Lemma token_right_from_word_witness :
  let self := session [7] (py "ab--cd") 0 in
  LineEdit.wf (Search.line_edit self)
  /\ re.run (@is_non_alphanum ascii_only) (drop (Z.to_nat 0) (py "ab--cd")) = O
  /\ cursor_of (@Search._move_word_right ascii_only false self (world0 noon)) = 3.
Proof.
  cbv zeta.
  assert (LineEdit.wf (Search.line_edit (session [7] (py "ab--cd") 0))) as Hwf.
  { vm_compute. split; intros Hc; discriminate Hc. }
  destruct (@token_right_from_word ascii_only (session [7] (py "ab--cd") 0)
              (world0 noon) Hwf eq_refl) as [Hq _].
  split; [exact Hwf|]. split; [reflexivity | exact Hq].
Defined.

(** ** What every callback keeps *)

Section Keeping.
Context `{UnicodeData}.
Implicit Types (self : Search.t) (w : World).

Lemma keeps_refl self w : keeps self w self w.
Proof.
  repeat split; try done. exists []. by rewrite app_nil_r.
Qed.

(** Calls that are addressed to the targets of a later session are
    addressed to the targets of the first one. *)
Lemma keeps_calls self0 w0 self w (new : list (list str)) w' :
  keeps self0 w0 self w ->
  remote_calls w' = remote_calls w ++ new ->
  Forall (addressed self) new ->
  exists new', remote_calls w' = remote_calls w0 ++ new' /\ Forall (addressed self0) new'.
Proof.
  intros (Hwin & _ & _ & _ & old & Hold & Hall) Hnew Hadd.
  exists (old ++ new). split.
  - by rewrite Hnew, Hold, app_assoc.
  - apply Forall_app. split; [exact Hall|].
    eapply Forall_impl; [exact Hadd|]. intros call (a & Ha & Hc).
    exists a. split; [|exact Hc]. unfold Search.match_args in *. by rewrite <- Hwin.
Qed.

Lemma mark_calls self w :
  exists new,
    remote_calls (Search.mark self w).2 = remote_calls w ++ new
    /\ Forall (addressed self) new.
Proof.
  unfold Search.mark. destruct (bool_decide _).
  { exists []. by rewrite app_nil_r. }
  cbn [time_time]. destruct (_ && _).
  { exists []. by rewrite app_nil_r. }
  unfold Search.remove_mark.
  destruct (negb _); cbn [fst snd]; rewrite remote_calls_fold; cbn [remote_calls];
    eexists; (split; [reflexivity|]);
    apply Forall_map, Forall_forall; intros a Ha; exists a; by split.
Qed.

Lemma refresh_keeps self0 w0 self w :
  keeps self0 w0 self w ->
  keeps self0 w0 (Search.refresh self w).1 (Search.refresh self w).2.
Proof.
  intros Hk. pose proof Hk as (Hwin & Herr & Hmark & Hprompt & _).
  destruct (refresh_self self w) as (tx & tm & Hself).
  unfold Search.refresh, Search.draw_screen in *.
  match goal with |- context [Search.mark self ?w1] => set (w1' := w1) in * end.
  destruct (mark_calls self w1') as (new & Hnew & Hadd).
  rewrite Hself. repeat split; try done.
  eapply keeps_calls; [exact Hk | | exact Hadd]. exact Hnew.
Qed.

Lemma set_line_edit_keeps line_edit' self0 w0 self w :
  keeps self0 w0 self w -> keeps self0 w0 (Search.set_line_edit line_edit' self) w.
Proof. intros Hk. exact Hk. Qed.

Lemma set_text_marked_keeps self0 w0 self w :
  keeps self0 w0 self w -> keeps self0 w0 (Search.set_text_marked false self) w.
Proof. intros (? & ? & ? & ? & ?). repeat split; done. Qed.

Lemma _delete_word_keeps use_whitespace self0 w0 self w :
  keeps self0 w0 self w ->
  keeps self0 w0 (Search._delete_word use_whitespace self w).1
    (Search._delete_word use_whitespace self w).2.
Proof.
  intros Hk. unfold Search._delete_word.
  destruct (LineEdit.split_at_cursor _) as [before after].
  destruct use_whitespace; by apply refresh_keeps, set_line_edit_keeps.
Qed.

Lemma _move_word_left_keeps use_whitespace self0 w0 self w :
  keeps self0 w0 self w ->
  keeps self0 w0 (Search._move_word_left use_whitespace self w).1
    (Search._move_word_left use_whitespace self w).2.
Proof.
  intros Hk. unfold Search._move_word_left.
  destruct (LineEdit.split_at_cursor _) as [before after].
  destruct use_whitespace; by apply refresh_keeps, set_line_edit_keeps.
Qed.

Lemma _move_word_right_keeps use_whitespace self0 w0 self w :
  keeps self0 w0 self w ->
  keeps self0 w0 (Search._move_word_right use_whitespace self w).1
    (Search._move_word_right use_whitespace self w).2.
Proof.
  intros Hk. unfold Search._move_word_right.
  destruct (LineEdit.split_at_cursor _) as [before after].
  destruct use_whitespace; by apply refresh_keeps, set_line_edit_keeps.
Qed.

Lemma update_prompt_ok self : prompt_ok (Search.update_prompt self).
Proof. reflexivity. Qed.

Lemma switch_mode_keeps self0 w0 self w :
  keeps self0 w0 self w -> keeps self0 w0 (Search.switch_mode self) w.
Proof.
  intros (? & ? & ? & ? & ?). repeat split; done.
Qed.

Lemma quit_keeps return_code self0 w0 self w :
  keeps self0 w0 self w ->
  keeps self0 w0 (Search.quit return_code self w).1 (Search.quit return_code self w).2.
Proof.
  intros Hk. pose proof Hk as (Hwin & Herr & Hmark & Hprompt & _).
  unfold Search.quit. cbn [fst snd]. repeat split; try done.
  eapply (keeps_calls _ _ _ _
            (map (fun a => [py "remove-marker"; a]) (Search.match_args self)
             ++ (if negb (return_code =? 0)
                 then map (fun a => [py "scroll-window"; a; py "end"]) (Search.match_args self)
                 else []))); [exact Hk | |].
  - change (Search.remove_mark (Search.set_cached_values ?v self) w)
      with (Search.remove_mark self w).
    change (Search.match_args (Search.set_cached_values ?v self))
      with (Search.match_args self).
    destruct (negb _).
    + rewrite remote_calls_fold. cbn [remote_calls].
      by rewrite remove_mark_calls, app_assoc.
    + by rewrite remove_mark_calls, app_nil_r.
  - apply Forall_app. split.
    + apply Forall_map, Forall_forall. intros a Ha. exists a. by split.
    + destruct (negb _); [|constructor].
      apply Forall_map, Forall_forall. intros a Ha. exists a. by split.
Qed.

Lemma on_text_keeps text in_bracketed_paste self0 w0 self w :
  keeps self0 w0 self w ->
  keeps self0 w0 (Search.on_text text in_bracketed_paste self w).1
    (Search.on_text text in_bracketed_paste self w).2.
Proof.
  intros Hk. unfold Search.on_text. apply refresh_keeps, set_line_edit_keeps.
  destruct (Search.text_marked self); [|exact Hk].
  by apply set_line_edit_keeps, set_text_marked_keeps.
Qed.

Context `{Host}.

Lemma _navigate_to_match_keeps forward self0 w0 self w :
  keeps self0 w0 self w ->
  keeps self0 w0 (Search._navigate_to_match forward self w).1
    (Search._navigate_to_match forward self w).2.
Proof.
  intros Hk. pose proof Hk as (Hwin & Herr & Hmark & Hprompt & _).
  unfold Search._navigate_to_match. cbn [fst snd]. repeat split; try done.
  eapply keeps_calls; [exact Hk | by rewrite remote_calls_fold |].
  apply Forall_map, Forall_forall. intros a Ha. exists a. by split.
Qed.

Lemma on_key_keeps key_event self0 w0 self w :
  keeps self0 w0 self w ->
  keeps self0 w0 (Search.on_key key_event self w).1 (Search.on_key key_event self w).2.
Proof.
  intros Hk. unfold Search.on_key.
  assert (exists self1 w1,
            (if Search._should_clear_mark key_event self
             then Search.refresh (Search.set_text_marked false self) w
             else (self, w)) = (self1, w1)
            /\ keeps self0 w0 self1 w1) as (self1 & w1 & -> & Hk1).
  { destruct (Search._should_clear_mark key_event self).
    - eexists _, _. split; [apply surjective_pairing|].
      by apply refresh_keeps, set_text_marked_keeps.
    - by eexists _, _. }
  destruct (LineEdit_on_key key_event (Search.line_edit self1)) as [handled line_edit'].
  repeat match goal with
         | |- context [if ?b then _ else _] => destruct b
         end;
    repeat first
      [ exact Hk1
      | apply refresh_keeps
      | apply _delete_word_keeps
      | apply _move_word_left_keeps
      | apply _move_word_right_keeps
      | apply _navigate_to_match_keeps
      | apply quit_keeps
      | apply switch_mode_keeps
      | apply set_line_edit_keeps ].
Qed.

Lemma handle_keeps cb self0 w0 self w :
  keeps self0 w0 self w ->
  keeps self0 w0 (handle cb self w).1 (handle cb self w).2.
Proof.
  intros Hk. destruct cb; cbn [handle].
  - by apply on_key_keeps.
  - by apply on_text_keeps.
  - by apply refresh_keeps.
  - by apply quit_keeps.
  - by apply quit_keeps.
Qed.

Lemma handle_all_keeps cbs self0 w0 self w :
  keeps self0 w0 self w ->
  keeps self0 w0 (handle_all cbs self w).1 (handle_all cbs self w).2.
Proof.
  unfold handle_all. revert self w.
  induction cbs as [|cb cbs IH]; intros self w Hk; [exact Hk|].
  cbn [fold_left fst snd].
  rewrite (surjective_pairing (handle cb self w)). apply IH. by apply handle_keeps.
Qed.
End Keeping.

(** X8. Whatever callbacks arrive, in whatever order, the target windows
    and the error text stay as they are, and every call of [kitty @] that is
    added names one of the target windows as its second argument: no
    callback reaches a window outside the target set. *)
Theorem callbacks_address_targets `{UnicodeData} `{Host}
    (cbs : list callback) (self : Search.t) (w : World) :
  let r := handle_all cbs self w in
  Search.window_ids r.1 = Search.window_ids self
  /\ Search.error r.1 = Search.error self
  /\ exists new,
       remote_calls r.2 = remote_calls w ++ new
       /\ Forall (fun call =>
                    exists match_arg,
                      match_arg ∈ Search.match_args self
                      /\ call !! 1%nat = Some match_arg) new.
Proof.
  intros r.
  destruct (handle_all_keeps cbs self w self w (keeps_refl self w))
    as (Hwin & Herr & _ & _ & new & Hnew & Hall).
  split; [exact Hwin|]. split; [exact Herr|]. by exists new.
Qed.

(** X9. A session without target windows never calls [kitty @], whatever
    callbacks arrive. *)
Theorem no_targets_no_calls `{UnicodeData} `{Host}
    (cbs : list callback) (self : Search.t) (w : World) :
  Search.window_ids self = [] ->
  remote_calls (handle_all cbs self w).2 = remote_calls w.
Proof.
  intros Hwin.
  destruct (handle_all_keeps cbs self w self w (keeps_refl self w))
    as (_ & _ & _ & _ & new & -> & Hall).
  destruct new as [|call new]; [apply app_nil_r|].
  apply Forall_cons in Hall as [(a & Ha & _) _].
  unfold Search.match_args in Ha. rewrite Hwin in Ha. by apply elem_of_nil in Ha.
Qed.

Lemma no_targets_no_calls_witness :
  let cbs := [OnText (py "a") false; OnKey (press "ENTER" "enter")] in
  Search.window_ids (session [] (py "abc") 3) = []
  /\ remote_calls (@handle_all ascii_only plain_host cbs (session [] (py "abc") 3)
                     (world0 noon)).2
     = remote_calls (world0 noon).
Proof.
  cbv zeta. split; [reflexivity|].
  exact (@no_targets_no_calls ascii_only plain_host
           [OnText (py "a") false; OnKey (press "ENTER" "enter")]
           (session [] (py "abc") 3) (world0 noon) eq_refl).
Defined.

(** X10. From the constructor on and after any callbacks, the prompt shows
    the glyph of the mode: [~> ] when the mode is [regex], [=> ]
    otherwise. *)
Theorem prompt_shows_mode `{UnicodeData} `{Host}
    (cached_values : gmap (list N) (list N)) (window_ids : list Z) (error : str)
    (w : World) (cbs : list callback) :
  let r0 := Search.__init__ cached_values window_ids error w in
  let r := handle_all cbs r0.1 r0.2 in
  Search.prompt r.1
  = if bool_decide (Search.mode r.1 = py "regex") then py "~> " else py "=> ".
Proof.
  intros r0 r.
  destruct (handle_all_keeps cbs r0.1 r0.2 r0.1 r0.2 (keeps_refl _ _))
    as (_ & _ & _ & Hprompt & _).
  apply Hprompt. subst r0. unfold Search.__init__.
  match goal with |- context [Search.mark ?s w] => set (self := s) end.
  destruct (mark_self self w) as (tx & tm & ->). reflexivity.
Qed.

(** X11. Once [text_marked] is down it stays down, whatever callbacks
    arrive: only the constructor raises it. *)
Theorem mark_never_comes_back `{UnicodeData} `{Host}
    (cbs : list callback) (self : Search.t) (w : World) :
  Search.text_marked self = false ->
  Search.text_marked (handle_all cbs self w).1 = false.
Proof.
  intros Hmark.
  destruct (handle_all_keeps cbs self w self w (keeps_refl self w))
    as (_ & _ & Hkeep & _). by apply Hkeep.
Qed.

Lemma mark_never_comes_back_witness :
  let cbs := [OnKey (press "TAB" "tab"); OnText (py "a") false; OnResize] in
  Search.text_marked (session [7] (py "abc") 3) = false
  /\ Search.text_marked
       (@handle_all ascii_only plain_host cbs (session [7] (py "abc") 3) (world0 noon)).1
     = false.
Proof.
  cbv zeta. split; [reflexivity|].
  exact (@mark_never_comes_back ascii_only plain_host
           [OnKey (press "TAB" "tab"); OnText (py "a") false; OnResize]
           (session [7] (py "abc") 3) (world0 noon) eq_refl).
Defined.

(** ** Typing *)

(** X12. Typed text always takes the mark down.  Typed while the restored
    term is marked, it replaces the whole input; typed otherwise, it is
    inserted at the cursor; in both cases the cursor ends behind it. *)
Theorem on_text_replaces_or_inserts `{UnicodeData} (text : str)
    (in_bracketed_paste : bool) (self : Search.t) (w : World) :
  let s := LineEdit.current_input (Search.line_edit self) in
  let c := LineEdit.cursor_pos (Search.line_edit self) in
  let r := Search.on_text text in_bracketed_paste self w in
  Search.text_marked r.1 = false
  /\ (Search.text_marked self = true ->
      text_of r = text /\ cursor_of r = len text)
  /\ (Search.text_marked self = false -> LineEdit.wf (Search.line_edit self) ->
      text_of r = take (Z.to_nat c) s ++ text ++ drop (Z.to_nat c) s
      /\ cursor_of r = c + len text).
Proof.
  intros s c r. subst r. unfold text_of, cursor_of, Search.on_text.
  rewrite refresh_text_marked, refresh_line_edit.
  destruct (Search.text_marked self) eqn:Hm;
    cbn [Search.text_marked Search.line_edit Search.set_line_edit Search.set_text_marked].
  - split; [reflexivity|]. split; [|discriminate]. intros _.
    unfold LineEdit.on_text, LineEdit.add_text, LineEdit.split_at_cursor, LineEdit.clear.
    cbn [LineEdit.current_input LineEdit.cursor_pos app].
    rewrite take_nil, drop_nil, app_nil_r. split; [reflexivity|].
    unfold len. cbn [length]. lia.
  - split; [exact Hm|]. split; [discriminate|]. intros _ Hwf.
    unfold LineEdit.on_text, LineEdit.add_text, LineEdit.split_at_cursor.
    fold s c. cbn [LineEdit.current_input LineEdit.cursor_pos].
    split; [reflexivity|].
    unfold LineEdit.wf in Hwf. fold s c in Hwf. unfold len in *.
    rewrite length_take. lia.
Qed.

(** ** Toggling the mode *)

(** X13. From the mode [text] or [regex], toggling twice gives back the
    session as it was, except that the mode is now stored under [mode]; a
    single toggle changes the mode, stores it, and shows its glyph. *)
Theorem switch_mode_twice (self : Search.t) :
  Search.mode self = py "text" \/ Search.mode self = py "regex" ->
  prompt_ok self ->
  Search.switch_mode (Search.switch_mode self)
  = Search.set_cached_values
      (<[py "mode" := Search.mode self]> (Search.cached_values self)) self
  /\ Search.mode (Search.switch_mode self) <> Search.mode self
  /\ Search.cached_values (Search.switch_mode self) !! py "mode"
     = Some (Search.mode (Search.switch_mode self))
  /\ prompt_ok (Search.switch_mode self).
Proof.
  intros Hmode Hprompt. unfold prompt_ok in Hprompt.
  destruct self as [cv wins err le tm mode prompt lt ltm qc].
  cbn [Search.mode Search.prompt] in *.
  unfold Search.switch_mode, Search.update_prompt, Search.set_prompt,
    Search.set_cached_values, Search.set_mode.
  cbn [Search.mode Search.prompt Search.cached_values Search.window_ids Search.error
       Search.line_edit Search.text_marked Search._last_mark_text
       Search._last_mark_time Search.quit_code].
  destruct Hmode as [-> | ->].
  - rewrite (bool_decide_eq_true_2 (py "text" = py "text")) by reflexivity.
    rewrite (bool_decide_eq_false_2 (py "regex" = py "text")) by discriminate.
    rewrite (bool_decide_eq_false_2 (py "text" = py "regex")) in * by discriminate.
    rewrite (bool_decide_eq_true_2 (py "regex" = py "regex")) by reflexivity.
    rewrite insert_insert_eq, lookup_insert_eq. subst prompt.
    repeat split; try reflexivity. discriminate.
  - rewrite (bool_decide_eq_false_2 (py "regex" = py "text")) by discriminate.
    rewrite (bool_decide_eq_true_2 (py "text" = py "text")) by reflexivity.
    rewrite (bool_decide_eq_true_2 (py "regex" = py "regex")) in * by reflexivity.
    rewrite (bool_decide_eq_false_2 (py "text" = py "regex")) by discriminate.
    rewrite insert_insert_eq, lookup_insert_eq. subst prompt.
    repeat split; try reflexivity. discriminate.
Qed.

Lemma switch_mode_twice_witness :
  let self := session [7] (py "abc") 3 in
  (Search.mode self = py "text" \/ Search.mode self = py "regex")
  /\ prompt_ok self
  /\ Search.mode (Search.switch_mode (Search.switch_mode self)) = py "text"
  /\ Search.mode (Search.switch_mode self) <> Search.mode self.
Proof.
  cbv zeta.
  assert (Search.mode (session [7] (py "abc") 3) = py "text"
          \/ Search.mode (session [7] (py "abc") 3) = py "regex") as Hmode
    by (left; reflexivity).
  assert (prompt_ok (session [7] (py "abc") 3)) as Hprompt by reflexivity.
  destruct (switch_mode_twice (session [7] (py "abc") 3) Hmode Hprompt)
    as (Htwice & Hne & _).
  split; [exact Hmode|]. split; [exact Hprompt|]. split; [|exact Hne].
  rewrite Htwice. reflexivity.
Defined.

(** ** Ending the session from the keyboard *)

Section Quitting.
Context `{UnicodeData}.
Implicit Types (self : Search.t) (w : World).

Lemma refresh_quit_code self w :
  Search.quit_code (Search.refresh self w).1 = Search.quit_code self.
Proof. by destruct (refresh_self self w) as (? & ? & ->). Qed.

Lemma _delete_word_quit_code use_whitespace self w :
  Search.quit_code (Search._delete_word use_whitespace self w).1 = Search.quit_code self.
Proof.
  unfold Search._delete_word.
  destruct (LineEdit.split_at_cursor _) as [before after].
  destruct use_whitespace; by rewrite refresh_quit_code.
Qed.

Lemma _move_word_left_quit_code use_whitespace self w :
  Search.quit_code (Search._move_word_left use_whitespace self w).1 = Search.quit_code self.
Proof.
  unfold Search._move_word_left.
  destruct (LineEdit.split_at_cursor _) as [before after].
  destruct use_whitespace; by rewrite refresh_quit_code.
Qed.

Lemma _move_word_right_quit_code use_whitespace self w :
  Search.quit_code (Search._move_word_right use_whitespace self w).1 = Search.quit_code self.
Proof.
  unfold Search._move_word_right.
  destruct (LineEdit.split_at_cursor _) as [before after].
  destruct use_whitespace; by rewrite refresh_quit_code.
Qed.
End Quitting.

(** X14. A key ends the session only if the line editor did not handle it
    and it matches [enter] (return code 0) or [esc] (return code 1); no
    other key binding calls [quit]. *)
Theorem on_key_quits_on_enter_or_esc `{UnicodeData} `{Host}
    (key_event : KeyEventType) (self : Search.t) (w : World) (return_code : Z) :
  Search.quit_code self = None ->
  Search.quit_code (Search.on_key key_event self w).1 = Some return_code ->
  (LineEdit_on_key key_event (Search.line_edit self)).1 = false
  /\ ((return_code = 0 /\ matches key_event (py "enter") = true)
      \/ (return_code = 1 /\ matches key_event (py "esc") = true)).
Proof.
  intros Hnone. unfold Search.on_key.
  assert (exists self1 w1,
            (if Search._should_clear_mark key_event self
             then Search.refresh (Search.set_text_marked false self) w
             else (self, w)) = (self1, w1)
            /\ Search.quit_code self1 = None
            /\ Search.line_edit self1 = Search.line_edit self)
    as (self1 & w1 & -> & Hq1 & Hle1).
  { destruct (Search._should_clear_mark key_event self).
    - eexists _, _. split; [apply surjective_pairing|].
      by rewrite refresh_quit_code, refresh_line_edit.
    - by eexists _, _. }
  rewrite Hle1.
  destruct (LineEdit_on_key key_event (Search.line_edit self)) as [handled line_edit'].
  cbn [fst].
  repeat match goal with
         | |- context [if ?b then _ else _] => destruct b eqn:?
         end;
    rewrite ?refresh_quit_code, ?_delete_word_quit_code, ?_move_word_left_quit_code,
      ?_move_word_right_quit_code;
    cbn [fst Search.quit Search.quit_loop Search.quit_code Search.set_line_edit
         Search.switch_mode Search.update_prompt Search.set_prompt
         Search.set_cached_values Search.set_mode Search._navigate_to_match];
    rewrite ?Hq1; intros Hq; try discriminate Hq;
    injection Hq as <-; split; auto.
Qed.

Lemma on_key_quits_on_enter_or_esc_witness :
  let self := session [7] (py "abc") 3 in
  let r := @Search.on_key ascii_only plain_host (press "ESCAPE" "esc") self (world0 noon) in
  Search.quit_code self = None
  /\ Search.quit_code r.1 = Some 1
  /\ (@LineEdit_on_key plain_host (press "ESCAPE" "esc") (Search.line_edit self)).1 = false
  /\ ((1 = 0 /\ matches (press "ESCAPE" "esc") (py "enter") = true)
      \/ (1 = 1 /\ matches (press "ESCAPE" "esc") (py "esc") = true)).
Proof.
  cbv zeta.
  assert (Search.quit_code
            (@Search.on_key ascii_only plain_host (press "ESCAPE" "esc")
               (session [7] (py "abc") 3) (world0 noon)).1 = Some 1) as Hq
    by (vm_compute; reflexivity).
  split; [reflexivity|]. split; [exact Hq|].
  exact (@on_key_quits_on_enter_or_esc ascii_only plain_host (press "ESCAPE" "esc")
           (session [7] (py "abc") 3) (world0 noon) 1 eq_refl Hq).
Defined.

(** ** The debounce memory and the empty query *)

(** X15. After a marker request on a non-empty target set, carried out or
    skipped, the text remembered for the debounce is the current input. *)
Theorem mark_remembers_text `{UnicodeData} (self : Search.t) (w : World) :
  Search.window_ids self <> [] ->
  Search._last_mark_text (Search.mark self w).1
  = LineEdit.current_input (Search.line_edit self)
  /\ Search._last_mark_text (Search.refresh self w).1
     = LineEdit.current_input (Search.line_edit self).
Proof.
  intros Hwin.
  assert (forall w',
            Search._last_mark_text (Search.mark self w').1
            = LineEdit.current_input (Search.line_edit self)) as Hmark.
  { intros w'. destruct (debounced self (wall_clock w' (clock_reads w'))) eqn:Hd.
    - destruct (mark_skips self w' Hwin Hd) as [-> _].
      unfold debounced in Hd. apply andb_true_iff in Hd as [Hd _].
      by apply bool_decide_eq_true_1 in Hd.
    - by destruct (mark_carries_out self w' Hwin Hd) as [-> _]. }
  split; [apply Hmark|]. unfold Search.refresh, Search.draw_screen. apply Hmark.
Qed.

Lemma mark_remembers_text_witness :
  let self := session [7] (py "abc") 3 in
  Search.window_ids self <> []
  /\ Search._last_mark_text (@Search.mark ascii_only self (world0 noon)).1 = py "abc"
  /\ Search._last_mark_text (@Search.refresh ascii_only self (world0 noon)).1 = py "abc".
Proof.
  cbv zeta. split; [discriminate|].
  exact (@mark_remembers_text ascii_only (session [7] (py "abc") 3) (world0 noon)
           ltac:(discriminate)).
Defined.

(** X16. A marker request for the empty input that is carried out creates
    no marker: it sends one [remove-marker] per target window. *)
Theorem mark_empty_query_removes `{UnicodeData} (self : Search.t) (w : World) :
  Search.window_ids self <> [] ->
  LineEdit.current_input (Search.line_edit self) = [] ->
  debounced self (wall_clock w (clock_reads w)) = false ->
  remote_calls (Search.mark self w).2
  = remote_calls w
    ++ map (fun match_arg => [py "remove-marker"; match_arg]) (Search.match_args self).
Proof.
  intros Hwin Htext Hgo.
  destruct (mark_carries_out self w Hwin Hgo) as [_ ->].
  unfold mark_requests. by rewrite Htext.
Qed.

Lemma mark_empty_query_removes_witness :
  let self := session [7; 8] (py "") 0 in
  Search.window_ids self <> []
  /\ LineEdit.current_input (Search.line_edit self) = []
  /\ debounced self (wall_clock (world0 noon) (clock_reads (world0 noon))) = false
  /\ remote_calls (@Search.mark ascii_only self (world0 noon)).2
     = [[py "remove-marker"; py "--match=id:7"]; [py "remove-marker"; py "--match=id:8"]].
Proof.
  cbv zeta. split; [discriminate|]. split; [reflexivity|]. split; [reflexivity|].
  exact (@mark_empty_query_removes ascii_only (session [7; 8] (py "") 0) (world0 noon)
           ltac:(discriminate) eq_refl eq_refl).
Defined.

(** ** From one session to the next *)

(** X17. What a session leaves in the stored values is what the next one
    starts from: after [quit], with either return code, a new session over
    the stored values has the old input as its input, marked unless it is
    empty, with the cursor at its end and inside the text; and after a
    toggle of the mode, a new session starts in the toggled mode. *)
Theorem stored_values_round_trip `{UnicodeData} (return_code : Z)
    (self : Search.t) (w w' : World) (window_ids : list Z) (error : str) :
  let text := LineEdit.current_input (Search.line_edit self) in
  let stored := Search.cached_values (Search.quit return_code self w).1 in
  let next := Search.__init__ stored window_ids error w' in
  let toggled := Search.switch_mode self in
  text_of next = text
  /\ cursor_of next = len text
  /\ LineEdit.wf (Search.line_edit next.1)
  /\ Search.text_marked next.1 = negb (bool_decide (text = []))
  /\ Search.mode (Search.__init__ (Search.cached_values toggled) window_ids error w').1
     = Search.mode toggled.
Proof.
  intros text stored next toggled.
  assert (forall cv, exists tx tm,
            (Search.__init__ cv window_ids error w').1
            = Search.set_last_mark tx tm
                (Search.update_prompt
                   {| Search.cached_values := cv; Search.window_ids := window_ids;
                      Search.error := error;
                      Search.line_edit :=
                        LineEdit.add_text (default (py "") (cv !! py "last_search"))
                          LineEdit.new;
                      Search.text_marked :=
                        negb (bool_decide (default (py "") (cv !! py "last_search") = []));
                      Search.mode := default (py "text") (cv !! py "mode");
                      Search.prompt := [];
                      Search._last_mark_text := py "";
                      Search._last_mark_time := 0%float;
                      Search.quit_code := None |})) as Hinit.
  { intros cv. unfold Search.__init__. apply mark_self. }
  assert (stored !! py "last_search" = Some text) as Hstored.
  { subst stored. unfold Search.quit. cbn [fst Search.quit_loop Search.cached_values
      Search.set_cached_values]. apply lookup_insert_eq. }
  unfold text_of, cursor_of. subst next.
  destruct (Hinit stored) as (tx & tm & ->).
  destruct (Hinit (Search.cached_values toggled)) as (tx' & tm' & ->).
  cbn [Search.set_last_mark Search.update_prompt Search.set_prompt Search.line_edit
       Search.text_marked Search.mode].
  rewrite Hstored. cbn [default].
  unfold LineEdit.add_text, LineEdit.new, LineEdit.split_at_cursor, LineEdit.wf.
  cbn [LineEdit.current_input LineEdit.cursor_pos app].
  rewrite take_nil, drop_nil, app_nil_r.
  unfold len. cbn [length].
  repeat split; try reflexivity; try lia.
  subst toggled. unfold Search.switch_mode.
  cbn [Search.update_prompt Search.set_prompt Search.set_cached_values
       Search.cached_values Search.mode Search.set_mode].
  by rewrite lookup_insert_eq.
Qed.

(** ** The entry point *)

Section Finding.
Implicit Types (tab : LsJson.tab) (os_window : LsJson.os_window).

Lemma find_in_windows_Some window_id tab kitty_windows found :
  find_in_windows window_id tab kitty_windows None = Some found ->
  found = tab /\ window_id ∈ map LsJson.id kitty_windows.
Proof.
  induction kitty_windows as [|kw rest IH]; [discriminate|].
  cbn [find_in_windows map]. destruct (Z.eqb_spec (LsJson.id kw) window_id) as [<-|].
  - intros [= <-]. split; [reflexivity | apply list_elem_of_here].
  - intros Hf. apply IH in Hf as [-> Hin]. split; [reflexivity|].
    by apply list_elem_of_further.
Qed.

Lemma find_in_windows_None window_id tab kitty_windows :
  find_in_windows window_id tab kitty_windows None = None ->
  window_id ∉ map LsJson.id kitty_windows.
Proof.
  induction kitty_windows as [|kw rest IH]; cbn [find_in_windows map].
  - intros _ Hin. by apply elem_of_nil in Hin.
  - destruct (Z.eqb_spec (LsJson.id kw) window_id) as [|Hne]; [discriminate|].
    intros Hf [->|Hin]%elem_of_cons; [done|]. by apply IH.
Qed.

Lemma find_in_tabs_Some window_id tabs found :
  find_in_tabs window_id tabs None = Some found ->
  found ∈ tabs /\ window_id ∈ map LsJson.id (LsJson.windows found).
Proof.
  induction tabs as [|tab rest IH]; [discriminate|].
  cbn [find_in_tabs].
  destruct (find_in_windows window_id tab (LsJson.windows tab) None) as [t|] eqn:Hw.
  - intros [= <-]. apply find_in_windows_Some in Hw as [-> Hin].
    split; [apply list_elem_of_here | exact Hin].
  - intros Hf. apply IH in Hf as [Hin Hid]. split; [|exact Hid].
    by apply list_elem_of_further.
Qed.

Lemma find_in_tabs_None window_id tabs :
  find_in_tabs window_id tabs None = None ->
  forall tab, tab ∈ tabs -> window_id ∉ map LsJson.id (LsJson.windows tab).
Proof.
  induction tabs as [|tab0 rest IH]; cbn [find_in_tabs].
  - intros _ tab Hin. by apply elem_of_nil in Hin.
  - destruct (find_in_windows window_id tab0 (LsJson.windows tab0) None) as [t|] eqn:Hw;
      [discriminate|].
    intros Hf tab [->|Hin]%elem_of_cons.
    + by apply find_in_windows_None in Hw.
    + by apply IH.
Qed.

Lemma find_in_os_windows_Some window_id ls_json found :
  find_in_os_windows window_id ls_json None = Some found ->
  exists os_window,
    os_window ∈ ls_json /\ found ∈ LsJson.tabs os_window
    /\ window_id ∈ map LsJson.id (LsJson.windows found).
Proof.
  induction ls_json as [|os rest IH]; [discriminate|].
  cbn [find_in_os_windows].
  destruct (find_in_tabs window_id (LsJson.tabs os) None) as [t|] eqn:Ht.
  - intros [= <-]. apply find_in_tabs_Some in Ht as [Hin Hid].
    exists os. split; [apply list_elem_of_here | by split].
  - intros Hf. apply IH in Hf as (os' & Hin & Hrest). exists os'.
    split; [by apply list_elem_of_further | exact Hrest].
Qed.

Lemma find_in_os_windows_None window_id ls_json :
  find_in_os_windows window_id ls_json None = None ->
  forall os_window tab,
    os_window ∈ ls_json -> tab ∈ LsJson.tabs os_window ->
    window_id ∉ map LsJson.id (LsJson.windows tab).
Proof.
  induction ls_json as [|os rest IH]; cbn [find_in_os_windows].
  - intros _ os' tab Hin. by apply elem_of_nil in Hin.
  - destruct (find_in_tabs window_id (LsJson.tabs os) None) as [t|] eqn:Ht; [discriminate|].
    intros Hf os' tab [->|Hin]%elem_of_cons Htab.
    + by eapply find_in_tabs_None.
    + by eapply IH.
Qed.
End Finding.

Section Main.
Context `{UnicodeData} `{PyInt}.

Lemma init_window_ids_error cached_values window_ids error (w : World) :
  Search.window_ids (Search.__init__ cached_values window_ids error w).1 = window_ids
  /\ Search.error (Search.__init__ cached_values window_ids error w).1 = error.
Proof.
  unfold Search.__init__.
  match goal with |- context [Search.mark ?s w] => set (self := s) end.
  by destruct (mark_self self w) as (tx & tm & ->).
Qed.

Lemma init_without_targets cached_values error (w : World) :
  remote_calls (Search.__init__ cached_values [] error w).2 = remote_calls w.
Proof. reflexivity. Qed.
End Main.

(** X18. Given a window id that [int] reads as [window_id]: without the
    flag [--all-windows] the one target is that window, and there is no
    error text.  With the flag, every target is a window that is not
    focused, in a tab that contains the given window; there is no error text
    when some tab contains the given window; and when no tab does, there is
    no target and the error text says so. *)
Theorem main_targets `{UnicodeData} `{PyInt} (args : list str)
    (ls_json : list LsJson.os_window) (cached_values : gmap (list N) (list N))
    (w : World) (window_id : Z) :
  2 <= len args ->
  isdigit (nth 1 args []) = true ->
  int (nth 1 args []) = Returns window_id ->
  exists r,
    main args ls_json cached_values w = Returns r
    /\ if (2 <? len args) && bool_decide (nth 2 args [] = py "--all-windows") then
         (forall id, id ∈ Search.window_ids r.1 ->
            exists os_window tab kitty_window,
              os_window ∈ ls_json /\ tab ∈ LsJson.tabs os_window
              /\ kitty_window ∈ LsJson.windows tab
              /\ LsJson.id kitty_window = id
              /\ LsJson.is_focused kitty_window = false
              /\ window_id ∈ map LsJson.id (LsJson.windows tab))
         /\ ((exists os_window tab,
                os_window ∈ ls_json /\ tab ∈ LsJson.tabs os_window
                /\ window_id ∈ map LsJson.id (LsJson.windows tab)) ->
             Search.error r.1 = py "")
         /\ ((forall os_window tab,
                os_window ∈ ls_json -> tab ∈ LsJson.tabs os_window ->
                window_id ∉ map LsJson.id (LsJson.windows tab)) ->
             Search.window_ids r.1 = []
             /\ Search.error r.1 = py "Error: Could not find the window id provided.")
       else
         Search.window_ids r.1 = [window_id] /\ Search.error r.1 = py "".
Proof.
  intros Hlen Hdigit Hint. unfold main.
  destruct (Z.ltb_spec (len args) 2) as [|_]; [lia|].
  rewrite Hdigit, Hint. cbn [negb orb].
  destruct ((2 <? len args) && bool_decide (nth 2 args [] = py "--all-windows")).
  - destruct (find_in_os_windows window_id ls_json None) as [tab|] eqn:Hfind;
      eexists; (split; [reflexivity|]);
      match goal with
      | |- context [Search.__init__ ?cv ?ids ?err ?w1] =>
          destruct (init_window_ids_error cv ids err w1) as [-> ->]
      end.
    + apply find_in_os_windows_Some in Hfind as (os & Hos & Htab & Hid).
      split; [|split].
      * intros id Hin. apply list_elem_of_fmap in Hin as (kw & -> & Hkw).
        apply list_elem_of_filter in Hkw as [Hfocus Hkw].
        exists os, tab, kw. repeat split; try done.
        by apply negb_true_iff in Hfocus.
      * reflexivity.
      * intros Hnone. exfalso. by apply (Hnone os tab).
    + pose proof (find_in_os_windows_None _ _ Hfind) as Hnone.
      split; [|split].
      * intros id Hin. by apply elem_of_nil in Hin.
      * intros (os & tab & Hos & Htab & Hid). exfalso. by apply (Hnone os tab).
      * done.
  - eexists. split; [reflexivity|]. apply init_window_ids_error.
Qed.

Lemma main_targets_witness :
  let args := [py "search.py"; py "12"; py "--all-windows"] in
  let tab :=
    {| LsJson.windows :=
         [{| LsJson.id := 12; LsJson.is_focused := false |};
          {| LsJson.id := 13; LsJson.is_focused := true |};
          {| LsJson.id := 14; LsJson.is_focused := false |}] |} in
  let ls_json := [{| LsJson.tabs := [tab] |}] in
  2 <= len args
  /\ @isdigit ascii_int (nth 1 args []) = true
  /\ @int ascii_int (nth 1 args []) = Returns 12
  /\ exists r,
       @main ascii_only ascii_int args ls_json ∅ (world0 noon) = Returns r
       /\ Search.window_ids r.1 = [12; 14] /\ Search.error r.1 = py "".
Proof.
  cbv zeta.
  assert (2 <= len [py "search.py"; py "12"; py "--all-windows"]) as Hlen
    by (vm_compute; intros Hc; discriminate Hc).
  split; [exact Hlen|]. split; [reflexivity|]. split; [reflexivity|].
  destruct (@main_targets ascii_only ascii_int
              [py "search.py"; py "12"; py "--all-windows"]
              [{| LsJson.tabs :=
                    [{| LsJson.windows :=
                          [{| LsJson.id := 12; LsJson.is_focused := false |};
                           {| LsJson.id := 13; LsJson.is_focused := true |};
                           {| LsJson.id := 14; LsJson.is_focused := false |}] |}] |}]
              ∅ (world0 noon) 12 Hlen eq_refl eq_refl) as (r & Hr & _).
  exists r. split; [exact Hr|].
  vm_compute in Hr. injection Hr as <-. split; reflexivity.
Defined.

(** X19. Started without a window id, or with one that is not a string of
    digits, the kitten still builds its session, with no target and the
    error text; [kitty @ ls] is not asked, and neither the constructor nor
    any callback afterwards calls [kitty @]: the resize of its own window
    stays the only call. *)
Theorem main_without_window_id `{UnicodeData} `{PyInt} `{Host} (args : list str)
    (ls_json : list LsJson.os_window) (cached_values : gmap (list N) (list N))
    (w : World) :
  len args < 2 \/ isdigit (nth 1 args []) = false ->
  exists r,
    main args ls_json cached_values w = Returns r
    /\ Search.window_ids r.1 = []
    /\ Search.error r.1 = py "Error: Window id must be provided as the first argument."
    /\ forall cbs,
         remote_calls (handle_all cbs r.1 r.2).2
         = remote_calls w
           ++ [[py "resize-window"; py "--self"; py "--axis=vertical";
                py "--increment"; py "-100"]].
Proof.
  intros Hbad. unfold main.
  assert ((len args <? 2) || negb (isdigit (nth 1 args [])) = true) as ->.
  { destruct Hbad as [Hlen | ->]; [|apply orb_true_r].
    destruct (Z.ltb_spec (len args) 2); [reflexivity | lia]. }
  eexists. split; [reflexivity|].
  match goal with
  | |- context [Search.__init__ ?cv ?ids ?err ?w1] =>
      destruct (init_window_ids_error cv ids err w1) as [Hwin Herr]
  end.
  split; [exact Hwin|]. split; [exact Herr|].
  intros cbs. rewrite (no_targets_no_calls cbs _ _ Hwin). reflexivity.
Qed.

Lemma main_without_window_id_witness :
  let args := [py "search.py"; py "abc"] in
  (len args < 2 \/ @isdigit ascii_int (nth 1 args []) = false)
  /\ exists r,
       @main ascii_only ascii_int args [] ∅ (world0 noon) = Returns r
       /\ Search.window_ids r.1 = []
       /\ Search.error r.1 = py "Error: Window id must be provided as the first argument."
       /\ forall cbs,
            remote_calls (@handle_all ascii_only plain_host cbs r.1 r.2).2
            = remote_calls (world0 noon)
              ++ [[py "resize-window"; py "--self"; py "--axis=vertical";
                   py "--increment"; py "-100"]].
Proof.
  cbv zeta.
  assert (len [py "search.py"; py "abc"] < 2
          \/ @isdigit ascii_int (nth 1 [py "search.py"; py "abc"] []) = false) as Hbad
    by (right; reflexivity).
  split; [exact Hbad|].
  exact (@main_without_window_id ascii_only ascii_int plain_host
           [py "search.py"; py "abc"] [] ∅ (world0 noon) Hbad).
Defined.


